(** * ublue-update: the update orchestrator of [src/ublue_update/cli.py]

    A shallow embedding of [notify], [ask_for_updates],
    [hardware_inhibitor_checks_failed], [run_updates] and [main].

    The Python code is a sequence of calls to external collaborators
    (the lock manager, the session resolver, [subprocess.run], the logger)
    with three ways of leaving a function: a normal return, a raised
    exception, and [os._exit].  It is modelled in a small monad that
    records the external calls in order (a trace of events) and carries
    the way the computation ended. The answers of the collaborators are
    read from a record [World]. *)

From Stdlib Require Import ZArith List String Ascii Bool Lia DecimalString.
Import ListNotations.
Open Scope string_scope.
Open Scope Z_scope.

(** ** Data *)

(** An entry of [get_active_sessions()]: the dictionary with the keys
    ["User"] (numeric uid) and ["Name"] that the code reads. *)
Record session := { User : Z; Name : string }.

(** The [CompletedProcess] fields the code reads; [stdout] holds the
    captured bytes, one character of the Rocq string per byte. *)
Record completed := { returncode : Z; stdout : string }.

(** The parsed command line ([cli_args]). *)
Record cli_args := {
  force : bool;
  check : bool;
  updatecheck : bool;
  wait : bool;
  config : option string;
  system : bool
}.

(** Exceptions that the code raises or that Python raises for it. *)
Inductive exn :=
| KeyError
| TypeError
| AttributeError
| UnicodeDecodeError
| Exception (msg : string).

Inductive level := DEBUG | INFO | ERROR.

(** The external calls, in the order the process makes them. *)
Inductive event :=
| EvLoadConfig (path : option string)
| EvSystemUpdateCheck
| EvCheckHardwareInhibitors
| EvPendingDeploymentCheck
| EvGetActiveSessions
| EvGetXdgRuntimeDir (uid : Z)
| EvTransactionWait
| EvAcquireLock (path : string) (fd : option Z)
| EvReleaseLock (fd : Z)
| EvRun (argv : list string)
| EvLog (lvl : level) (msg : string)
| EvPrint (msg : string).

(** What the collaborators answer; each of them answers the same way
    every time it is asked during one run.  [None] in [get_active_sessions]
    and [get_xdg_runtime_dir] is the [KeyError] the code catches; [None] in
    [environ_XDG_RUNTIME_DIR] is an unset variable; [None] in
    [acquire_lock] is a lock that is already held. *)
Record World := {
  getuid : Z;
  dbus_notify : bool;
  environ_XDG_RUNTIME_DIR : option string;
  isdir : string -> bool;
  acquire_lock : string -> option Z;
  get_active_sessions : option (list session);
  get_xdg_runtime_dir : Z -> option string;
  subprocess_run : list string -> completed;
  system_update_check : bool;
  pending_deployment_check : bool;
  check_hardware_inhibitors : bool * list string
}.

(** ** The monad: a trace and the way the computation ended *)

Inductive result (A : Type) :=
| Ret (a : A)
| Raise (e : exn)
| Exit (code : Z).
Arguments Ret {A} a.
Arguments Raise {A} e.
Arguments Exit {A} code.

Definition M (A : Type) : Type := list event * result A.

Definition ret {A} (a : A) : M A := ([], Ret a).
Definition raise {A} (e : exn) : M A := ([], Raise e).
Definition os_exit {A} (code : Z) : M A := ([], Exit code).
Definition emit (e : event) : M unit := ([e], Ret tt).

Definition bind {A B} (m : M A) (k : A -> M B) : M B :=
  match m with
  | (t, Ret a) => let (t', r) := k a in ((t ++ t')%list, r)
  | (t, Raise e) => (t, Raise e)
  | (t, Exit c) => (t, Exit c)
  end.

Notation "x <- m ;; k" := (bind m (fun x => k))
  (at level 61, m at next level, right associativity).
Notation "m ;;; k" := (bind m (fun _ => k))
  (at level 61, right associativity).

Definition trace {A} (m : M A) : list event := fst m.
Definition outcome {A} (m : M A) : result A := snd m.

(** ** String helpers *)

(** Python's [hay.startswith(needle)]. *)
Fixpoint startswith (needle hay : string) : bool :=
  match needle with
  | EmptyString => true
  | String a needle' =>
      match hay with
      | EmptyString => false
      | String b hay' => Ascii.eqb a b && startswith needle' hay'
      end
  end.

(** Python's [needle in hay] on strings. *)
Fixpoint str_in (needle hay : string) : bool :=
  startswith needle hay ||
  match hay with
  | EmptyString => false
  | String _ rest => str_in needle rest
  end.

(** Well-formed UTF-8, as the strict decoder of [bytes.decode("utf-8")]
    accepts it: no stray continuation byte, no overlong form, no surrogate,
    nothing above U+10FFFF, no truncated sequence. *)
Definition byte_in (lo hi : N) (b : ascii) : bool :=
  (lo <=? N_of_ascii b)%N && (N_of_ascii b <=? hi)%N.

Definition second_of_three (b0 b1 : ascii) : bool :=
  if byte_in 224 224 b0 then byte_in 160 191 b1
  else if byte_in 237 237 b0 then byte_in 128 159 b1
  else byte_in 128 191 b1.

Definition second_of_four (b0 b1 : ascii) : bool :=
  if byte_in 240 240 b0 then byte_in 144 191 b1
  else if byte_in 244 244 b0 then byte_in 128 143 b1
  else byte_in 128 191 b1.

Fixpoint utf8_valid (s : string) : bool :=
  match s with
  | EmptyString => true
  | String b0 s1 =>
      if byte_in 0 127 b0 then utf8_valid s1
      else
        match s1 with
        | EmptyString => false
        | String b1 s2 =>
            if byte_in 194 223 b0
            then byte_in 128 191 b1 && utf8_valid s2
            else
              match s2 with
              | EmptyString => false
              | String b2 s3 =>
                  if byte_in 224 239 b0
                  then second_of_three b0 b1 && byte_in 128 191 b2
                       && utf8_valid s3
                  else
                    match s3 with
                    | EmptyString => false
                    | String b3 s4 =>
                        byte_in 240 244 b0 && second_of_four b0 b1
                        && byte_in 128 191 b2 && byte_in 128 191 b3
                        && utf8_valid s4
                    end
              end
        end
  end.

(** Python's [str(n)] for an integer. *)
Definition str_of_Z (n : Z) : string := NilZero.string_of_int (Z.to_int n).

(** [a == b] on strings, and [s in l] for a list of strings. *)
Definition mem (s : string) (l : list string) : bool :=
  existsb (String.eqb s) l.

(** ** The program *)

Definition notify_send_args (title body : string) (actions : list string)
    (urgency : string) : list string :=
  ([ "/usr/bin/notify-send";
     title;
     body;
     "--app-name=Universal Blue Updater";
     "--icon=software-update-available-symbolic";
     ("--urgency=" ++ urgency)%string ]
   ++ map (fun action => ("--action=" ++ action)%string) actions)%list.

Definition notify_user_args (user : session) (xdg_runtime_dir : string)
  : list string :=
  [ "/usr/bin/sudo";
    "-u";
    Name user;
    "DISPLAY=:0";
    "DBUS_SESSION_BUS_ADDRESS=unix:path=" ++ xdg_runtime_dir ++ "/bus" ].

Definition topgrade_system_argv : list string :=
  [ "/usr/bin/topgrade";
    "--config";
    "/usr/share/ublue-update/topgrade-system.toml" ].

Definition topgrade_user_argv (user : session) (xdg_runtime_dir : string)
  : list string :=
  [ "/usr/bin/sudo";
    "-u";
    Name user;
    "DISPLAY=:0";
    "XDG_RUNTIME_DIR=" ++ xdg_runtime_dir;
    "DBUS_SESSION_BUS_ADDRESS=unix:path=" ++ xdg_runtime_dir ++ "/bus";
    "/usr/bin/topgrade";
    "--config";
    "/usr/share/ublue-update/topgrade-user.toml" ].

Definition confirm_action : string := "universal-blue-update-confirm=Confirm".
Definition reboot_action : string := "universal-blue-update-reboot=Reboot Now".

Section Program.

Variable w : World.

Definition run (argv : list string) : M completed :=
  emit (EvRun argv) ;;; ret (subprocess_run w argv).

Definition log (lvl : level) (msg : string) : M unit := emit (EvLog lvl msg).

(** [bytes.decode("utf-8")]: the text of well-formed bytes, kept in its
    UTF-8 form, and [UnicodeDecodeError] otherwise.  A substring test with a
    well-formed needle gives the same answer on the text and on its UTF-8
    form. *)
Definition decode (bytes : string) : M string :=
  if utf8_valid bytes then ret bytes else raise UnicodeDecodeError.

(** [users = []; try: users = get_active_sessions() except KeyError: log.error(...)] *)
Definition active_sessions_or_empty : M (list session) :=
  emit EvGetActiveSessions ;;;
  match get_active_sessions w with
  | Some users => ret users
  | None =>
      log ERROR "failed to get active logind session info" ;;; ret []
  end.

(** The [for user in users] loop of [notify] (lines 38-55). *)
Fixpoint notify_users (args actions : list string) (users : list session)
  : M (option completed) :=
  match users with
  | [] => ret None
  | user :: rest =>
      emit (EvGetXdgRuntimeDir (User user)) ;;;
      match get_xdg_runtime_dir w (User user) with
      | None =>
          log ERROR ("failed to get xdg_runtime_dir for user: " ++ Name user) ;;;
          ret None
      | Some xdg_runtime_dir =>
          out <- run (notify_user_args user xdg_runtime_dir ++ args)%list ;;
          match actions with
          | _ :: _ => ret (Some out)
          | [] => notify_users args actions rest
          end
      end
  end.

Definition notify (title body : string) (actions : list string)
    (urgency : string) : M (option completed) :=
  if negb (dbus_notify w) then ret None
  else
    let process_uid := getuid w in
    let args := notify_send_args title body actions urgency in
    if process_uid =? 0 then
      users <- active_sessions_or_empty ;;
      notify_users args actions users
    else
      out <- run args ;;
      ret (Some out).

(** [os.environ.get("XDG_RUNTIME_DIR")] followed by [os.path.isdir], which
    raises [TypeError] on [None]. *)
Definition filelock_path : M string :=
  let process_uid := getuid w in
  let filelock_path := "/run/ublue-update.lock" in
  if negb (process_uid =? 0) then
    match environ_XDG_RUNTIME_DIR w with
    | None => raise TypeError
    | Some xdg_runtime_dir =>
        if isdir w xdg_runtime_dir
        then ret (xdg_runtime_dir ++ "/ublue-update.lock")
        else ret filelock_path
    end
  else ret filelock_path.

(** The [for user in users] loop of [run_updates] (lines 136-160). *)
Fixpoint update_users (users : list session) : M unit :=
  match users with
  | [] => ret tt
  | user :: rest =>
      emit (EvGetXdgRuntimeDir (User user)) ;;;
      match get_xdg_runtime_dir w (User user) with
      | None =>
          log ERROR ("failed to get xdg_runtime_dir for user: " ++ Name user)
      | Some xdg_runtime_dir =>
          log INFO ("Running update for user: '" ++ Name user ++ "'") ;;;
          out <- run (topgrade_user_argv user xdg_runtime_dir) ;;
          text <- decode (stdout out) ;;
          log DEBUG text ;;;
          update_users rest
      end
  end.

Definition run_updates (system system_update_available : bool) : M unit :=
  let process_uid := getuid w in
  filelock_path <- filelock_path ;;
  emit (EvAcquireLock filelock_path (acquire_lock w filelock_path)) ;;;
  match acquire_lock w filelock_path with
  | None => raise (Exception "updates are already running for this user")
  | Some fd =>
      emit EvTransactionWait ;;;
      (if process_uid =? 0 then
         notify "System Updater" "System passed checks, updating ..." []
           "normal" ;;;
         users <- active_sessions_or_empty ;;
         let users := if system then [] else users in
         out <- run topgrade_system_argv ;;
         text <- decode (stdout out) ;;
         log DEBUG text ;;;
         (if negb (returncode out =? 0) then
            emit (EvPrint ("topgrade returned code "
                           ++ str_of_Z (returncode out)
                           ++ ", program output:")) ;;;
            text <- decode (stdout out) ;;
            emit (EvPrint text) ;;;
            os_exit (returncode out)
          else ret tt) ;;;
         update_users users ;;;
         log INFO "System update complete" ;;;
         emit EvPendingDeploymentCheck ;;;
         (if pending_deployment_check w && system_update_available
             && dbus_notify w then
            out <- notify "System Updater"
                     "System update complete, pending changes will take effect after reboot. Reboot now?"
                     [reboot_action] "normal" ;;
            match out with
            | None => raise AttributeError
            | Some out =>
                text <- decode (stdout out) ;;
                if str_in "universal-blue-update-reboot" text
                then run ["systemctl"; "reboot"] ;;; ret tt
                else ret tt
            end
          else ret tt)
       else
         if system then
           raise (Exception
             "ublue-update needs to be run as root to perform system updates!")
         else ret tt) ;;;
      emit (EvReleaseLock fd) ;;;
      os_exit 0
  end.

Definition ask_for_updates (system : bool) : M unit :=
  if negb (dbus_notify w) then ret tt
  else
    out <- notify "System Updater"
             "Update available, but system checks failed. Update now?"
             [confirm_action] "critical" ;;
    match out with
    | None => ret tt
    | Some out =>
        text <- decode (stdout out) ;;
        if str_in "universal-blue-update-confirm" text
        then run_updates system true
        else ret tt
    end.

Definition gating_message (failures : list string) : string :=
  "update failed to pass checks: " ++ String (ascii_of_nat 10) EmptyString
  ++ " - " ++ String.concat (String (ascii_of_nat 10) " - ") failures.

Definition hardware_inhibitor_checks_failed (failures : list string)
    (hardware_check system_update_available system : bool) : M unit :=
  (if system_update_available && negb hardware_check then
     log INFO "Harware checks failed, but update is available" ;;;
     ask_for_updates system
   else ret tt) ;;;
  raise (Exception (gating_message failures)).

Definition main (cli_args : cli_args) : M unit :=
  emit (EvLoadConfig (config cli_args)) ;;;
  if wait cli_args then
    emit EvTransactionWait ;;; os_exit 0
  else
    emit EvSystemUpdateCheck ;;;
    let system_update_available := system_update_check w in
    (if negb (force cli_args) && negb (updatecheck cli_args) then
       emit EvCheckHardwareInhibitors ;;;
       let '(hardware_checks_failed, failures) := check_hardware_inhibitors w in
       (if hardware_checks_failed then
          hardware_inhibitor_checks_failed failures (check cli_args)
            system_update_available (system cli_args)
        else ret tt) ;;;
       (if check cli_args then os_exit 0 else ret tt)
     else ret tt) ;;;
    (if updatecheck cli_args then
       if negb system_update_available
       then raise (Exception "Update not available")
       else os_exit 0
     else ret tt) ;;;
    log INFO "System passed all update checks" ;;;
    run_updates (system cli_args) system_update_available.

End Program.

(** ** Reading a trace *)

Definition is_assignment (s : string) : bool := str_in "=" s.

Fixpoint skip_assignments (l : list string) : list string :=
  match l with
  | [] => []
  | x :: rest => if is_assignment x then skip_assignments rest else l
  end.

(** The command line a [subprocess.run] really executes: the argv itself,
    or, for [sudo -u NAME VAR=value ... prog args], the words from [prog] on. *)
Definition command (argv : list string) : list string :=
  match argv with
  | [] => []
  | prog :: rest =>
      if String.eqb prog "/usr/bin/sudo"
      then skip_assignments (skipn 2 rest)
      else argv
  end.

Definition on_command (p : list string -> bool) (e : event) : bool :=
  match e with
  | EvRun argv => p (command argv)
  | _ => false
  end.

Definition program_is (prog : string) (c : list string) : bool :=
  String.eqb (hd "" c) prog.

(** A desktop notification sent to some session bus. *)
Definition is_notify_send : event -> bool :=
  on_command (program_is "/usr/bin/notify-send").

(** An invocation of the update-mechanics tool with the per-user profile. *)
Definition is_user_pass : event -> bool :=
  on_command (fun c =>
    program_is "/usr/bin/topgrade" c
    && mem "/usr/share/ublue-update/topgrade-user.toml" c).

(** The critical notification that offers the confirm action. *)
Definition is_escalation : event -> bool :=
  on_command (fun c =>
    program_is "/usr/bin/notify-send" c
    && mem "--urgency=critical" c
    && mem ("--action=" ++ confirm_action) c).

Definition is_reboot : event -> bool :=
  on_command (program_is "systemctl").

Definition is_run (e : event) : bool :=
  match e with EvRun _ => true | _ => false end.

(** A lock that was taken, and a lock that was given back. *)
Definition is_acquired (e : event) : bool :=
  match e with EvAcquireLock _ (Some _) => true | _ => false end.

Definition is_acquire_attempt (e : event) : bool :=
  match e with EvAcquireLock _ _ => true | _ => false end.

Definition is_release (e : event) : bool :=
  match e with EvReleaseLock _ => true | _ => false end.

Definition count (p : event -> bool) (t : list event) : nat :=
  List.length (filter p t).

(** The events [notify] can produce when it sends [args]. *)
Definition notify_event (args : list string) (e : event) : Prop :=
  match e with
  | EvGetActiveSessions | EvGetXdgRuntimeDir _ | EvLog ERROR _ => True
  | EvRun argv => command argv = args
  | _ => False
  end.

(** The events of the per-user update loop. *)
Definition user_pass_event (e : event) : Prop :=
  match e with
  | EvGetXdgRuntimeDir _ | EvLog _ _ => True
  | EvRun argv =>
      command argv =
      [ "/usr/bin/topgrade"; "--config";
        "/usr/share/ublue-update/topgrade-user.toml" ]
  | _ => False
  end.

(** The sessions the per-user loop reaches: those before the first one
    whose runtime directory does not resolve, each with its directory. *)
Fixpoint reached (w : World) (users : list session)
  : list (session * string) :=
  match users with
  | [] => []
  | user :: rest =>
      match get_xdg_runtime_dir w (User user) with
      | None => []
      | Some d => (user, d) :: reached w rest
      end
  end.

(** Every per-user pass the loop reaches prints well-formed UTF-8. *)
Definition passes_decode (w : World) (users : list session) : Prop :=
  Forall (fun p =>
            utf8_valid
              (stdout (subprocess_run w
                         (topgrade_user_argv (fst p) (snd p)))) = true)
         (reached w users).

(** The escalation request of [ask_for_updates]. *)
Definition escalation (w : World) : M (option completed) :=
  notify w "System Updater"
    "Update available, but system checks failed. Update now?"
    [confirm_action] "critical".

(** The progress notification and the reboot prompt of [run_updates]. *)
Definition progress (w : World) : M (option completed) :=
  notify w "System Updater" "System passed checks, updating ..." [] "normal".

Definition reboot_prompt (w : World) : M (option completed) :=
  notify w "System Updater"
    "System update complete, pending changes will take effect after reboot. Reboot now?"
    [reboot_action] "normal".

(** The value of [users] after the [try] of [run_updates] and [notify]. *)
Definition resolved_sessions (w : World) : list session :=
  match get_active_sessions w with
  | Some users => users
  | None => []
  end.

(** What follows the per-user loop: the completion log, the pending
    deployment check, the reboot prompt, the release of the lock. *)
Definition after_users (w : World) (system_update_available : bool) (fd : Z)
  : list event * result unit :=
  if pending_deployment_check w && system_update_available && dbus_notify w
  then
    match outcome (reboot_prompt w) with
    | Ret (Some out) =>
        if utf8_valid (stdout out) then
          if str_in "universal-blue-update-reboot" (stdout out)
          then ((trace (reboot_prompt w)
                 ++ [EvRun ["systemctl"; "reboot"]; EvReleaseLock fd])%list,
                Exit 0)
          else ((trace (reboot_prompt w) ++ [EvReleaseLock fd])%list, Exit 0)
        else (trace (reboot_prompt w), Raise UnicodeDecodeError)
    | _ => (trace (reboot_prompt w), Raise AttributeError)
    end
  else ([EvReleaseLock fd], Exit 0).

(** What follows the system pass of a root run that holds the lock: the
    decoding and logging of the tool's output, the fatal exit on a non-zero
    status, the per-user loop and what follows it. *)
Definition after_system (w : World) (system system_update_available : bool)
    (fd : Z) : list event * result unit :=
  let out := subprocess_run w topgrade_system_argv in
  let users := if system then [] else resolved_sessions w in
  if utf8_valid (stdout out) then
    if returncode out =? 0 then
      match outcome (update_users w users) with
      | Ret _ =>
          ((EvLog DEBUG (stdout out)
            :: trace (update_users w users)
            ++ [EvLog INFO "System update complete";
                EvPendingDeploymentCheck]
            ++ fst (after_users w system_update_available fd))%list,
           snd (after_users w system_update_available fd))
      | Raise e =>
          (EvLog DEBUG (stdout out) :: trace (update_users w users), Raise e)
      | Exit c =>
          (EvLog DEBUG (stdout out) :: trace (update_users w users), Exit c)
      end
    else
      ([EvLog DEBUG (stdout out);
        EvPrint ("topgrade returned code "
                 ++ str_of_Z (returncode out) ++ ", program output:");
        EvPrint (stdout out)],
       Exit (returncode out))
  else ([], Raise UnicodeDecodeError).

(** Whether the human picked the confirm action of the escalation: the
    test of [ask_for_updates] on the response of [notify]. *)
Definition confirmed (w : World) : bool :=
  match outcome (escalation w) with
  | Ret (Some out) =>
      utf8_valid (stdout out)
      && str_in "universal-blue-update-confirm" (stdout out)
  | _ => false
  end.

(** Whether the response to the escalation cannot be decoded. *)
Definition garbled (w : World) : bool :=
  match outcome (escalation w) with
  | Ret (Some out) => negb (utf8_valid (stdout out))
  | _ => false
  end.

(** The command line with [--force] added. *)
Definition forced (a : cli_args) : cli_args :=
  {| force := true; check := check a; updatecheck := updatecheck a;
     wait := wait a; config := config a; system := system a |}.

(** Plain and check-only invocations. *)
Definition plain_args : cli_args :=
  {| force := false; check := false; updatecheck := false; wait := false;
     config := None; system := false |}.

Definition check_args : cli_args :=
  {| force := false; check := true; updatecheck := false; wait := false;
     config := None; system := false |}.

(** ** Scenarios

    Concrete machines on which the properties below are exercised. *)

Definition alice : session := {| User := 1000; Name := "alice" |}.
Definition bob : session := {| User := 1001; Name := "bob" |}.

Definition quiet (argv : list string) : completed :=
  {| returncode := 0; stdout := "" |}.

(** A logged-in user running the updater from the desktop. *)
Definition desktop_user : World := {|
  getuid := 1000;
  dbus_notify := true;
  environ_XDG_RUNTIME_DIR := Some "/run/user/1000";
  isdir := fun _ => true;
  acquire_lock := fun _ => Some 3;
  get_active_sessions := Some [alice];
  get_xdg_runtime_dir := fun _ => Some "/run/user/1000";
  subprocess_run := quiet;
  system_update_check := true;
  pending_deployment_check := false;
  check_hardware_inhibitors := (true, ["battery low"; "metered network"])
|}.

(** The same user, whose [XDG_RUNTIME_DIR] does not name a directory. *)
Definition stale_runtime_dir : World := {|
  getuid := 1000;
  dbus_notify := true;
  environ_XDG_RUNTIME_DIR := Some "/run/user/1000";
  isdir := fun _ => false;
  acquire_lock := fun _ => Some 3;
  get_active_sessions := Some [alice];
  get_xdg_runtime_dir := fun _ => Some "/run/user/1000";
  subprocess_run := quiet;
  system_update_check := true;
  pending_deployment_check := false;
  check_hardware_inhibitors := (false, [])
|}.

(** The same user while another instance holds the lock. *)
Definition lock_held : World := {|
  getuid := 1000;
  dbus_notify := true;
  environ_XDG_RUNTIME_DIR := Some "/run/user/1000";
  isdir := fun _ => true;
  acquire_lock := fun _ => None;
  get_active_sessions := Some [alice];
  get_xdg_runtime_dir := fun _ => Some "/run/user/1000";
  subprocess_run := quiet;
  system_update_check := true;
  pending_deployment_check := false;
  check_hardware_inhibitors := (false, [])
|}.

(** Root, notifications disabled, two sessions, and an update tool that
    fails for the system scope. *)
Definition root_tool_fails : World := {|
  getuid := 0;
  dbus_notify := false;
  environ_XDG_RUNTIME_DIR := None;
  isdir := fun _ => false;
  acquire_lock := fun _ => Some 3;
  get_active_sessions := Some [alice; bob];
  get_xdg_runtime_dir := fun _ => Some "/run/user/1000";
  subprocess_run := fun _ => {| returncode := 1; stdout := "boom" |};
  system_update_check := true;
  pending_deployment_check := false;
  check_hardware_inhibitors := (false, [])
|}.

(** Root, notifications disabled, two sessions of which the first has no
    resolvable runtime directory. *)
Definition first_session_unresolved : World := {|
  getuid := 0;
  dbus_notify := false;
  environ_XDG_RUNTIME_DIR := None;
  isdir := fun _ => false;
  acquire_lock := fun _ => Some 3;
  get_active_sessions := Some [alice; bob];
  get_xdg_runtime_dir :=
    fun uid => if uid =? 1000 then None else Some "/run/user/1001";
  subprocess_run := quiet;
  system_update_check := true;
  pending_deployment_check := false;
  check_hardware_inhibitors := (false, [])
|}.

(** Root with two sessions: nobody answers at the first one, the user of
    the second one would confirm. *)
Definition second_session_confirms : World := {|
  getuid := 0;
  dbus_notify := true;
  environ_XDG_RUNTIME_DIR := None;
  isdir := fun _ => false;
  acquire_lock := fun _ => Some 3;
  get_active_sessions := Some [alice; bob];
  get_xdg_runtime_dir :=
    fun uid => if uid =? 1000 then Some "/run/user/1000"
               else Some "/run/user/1001";
  subprocess_run :=
    fun argv => if mem "bob" argv
                then {| returncode := 0;
                        stdout := "universal-blue-update-confirm" |}
                else {| returncode := 0; stdout := "" |};
  system_update_check := true;
  pending_deployment_check := false;
  check_hardware_inhibitors := (true, ["battery low"])
|}.

(** Root with notifications enabled, failing inhibitors, an available
    update, and nobody logged in. *)
Definition root_nobody_logged_in : World := {|
  getuid := 0;
  dbus_notify := true;
  environ_XDG_RUNTIME_DIR := None;
  isdir := fun _ => false;
  acquire_lock := fun _ => Some 3;
  get_active_sessions := Some [];
  get_xdg_runtime_dir := fun _ => None;
  subprocess_run := quiet;
  system_update_check := true;
  pending_deployment_check := true;
  check_hardware_inhibitors := (true, ["battery low"])
|}.

(** A desktop user with notifications disabled and failing inhibitors. *)
Definition notifications_off : World := {|
  getuid := 1000;
  dbus_notify := false;
  environ_XDG_RUNTIME_DIR := Some "/run/user/1000";
  isdir := fun _ => true;
  acquire_lock := fun _ => Some 3;
  get_active_sessions := Some [alice];
  get_xdg_runtime_dir := fun _ => Some "/run/user/1000";
  subprocess_run := quiet;
  system_update_check := true;
  pending_deployment_check := true;
  check_hardware_inhibitors := (true, ["battery low"])
|}.

(** A desktop user who confirms every prompt. *)
Definition user_confirms : World := {|
  getuid := 1000;
  dbus_notify := true;
  environ_XDG_RUNTIME_DIR := Some "/run/user/1000";
  isdir := fun _ => true;
  acquire_lock := fun _ => Some 3;
  get_active_sessions := Some [alice];
  get_xdg_runtime_dir := fun _ => Some "/run/user/1000";
  subprocess_run :=
    fun _ => {| returncode := 0; stdout := "universal-blue-update-confirm" |};
  system_update_check := true;
  pending_deployment_check := false;
  check_hardware_inhibitors := (true, ["battery low"])
|}.

(** An invocation of the update-mechanics tool, for either scope. *)
Definition is_topgrade : event -> bool :=
  on_command (program_is "/usr/bin/topgrade").

(** The per-user pass for a session and its runtime directory. *)
Definition user_pass (p : session * string) : event :=
  EvRun (topgrade_user_argv (fst p) (snd p)).

(** Root, two sessions that both resolve, everything succeeds, a deployment
    is pending and every prompt is answered with the reboot action. *)
Definition root_reboots : World := {|
  getuid := 0;
  dbus_notify := true;
  environ_XDG_RUNTIME_DIR := None;
  isdir := fun _ => false;
  acquire_lock := fun _ => Some 3;
  get_active_sessions := Some [alice; bob];
  get_xdg_runtime_dir :=
    fun uid => if uid =? 1000 then Some "/run/user/1000"
               else Some "/run/user/1001";
  subprocess_run :=
    fun _ => {| returncode := 0; stdout := "universal-blue-update-reboot" |};
  system_update_check := true;
  pending_deployment_check := true;
  check_hardware_inhibitors := (false, [])
|}.

(** Root while another instance holds the system lock. *)
Definition root_lock_held : World := {|
  getuid := 0;
  dbus_notify := true;
  environ_XDG_RUNTIME_DIR := None;
  isdir := fun _ => false;
  acquire_lock := fun _ => None;
  get_active_sessions := Some [alice; bob];
  get_xdg_runtime_dir := fun _ => Some "/run/user/1000";
  subprocess_run := quiet;
  system_update_check := true;
  pending_deployment_check := false;
  check_hardware_inhibitors := (false, [])
|}.

(** The events [main] can produce outside [run_updates]: configuration,
    checks, the wait of [--wait], its two log lines and the escalation. *)
Definition gate_event (e : event) : Prop :=
  match e with
  | EvLoadConfig _ | EvSystemUpdateCheck | EvCheckHardwareInhibitors
  | EvTransactionWait | EvLog INFO _ => True
  | _ =>
      notify_event
        (notify_send_args "System Updater"
           "Update available, but system checks failed. Update now?"
           [confirm_action] "critical") e
  end.

(** The conditions under which [main] goes on to [run_updates]: not a
    wait-only or update-check-only invocation, and either forced, or not
    check-only with passing inhibitors, or not check-only with an available
    update and a confirmed escalation. *)
Definition gate_open (w : World) (args : cli_args) : Prop :=
  wait args = false
  /\ updatecheck args = false
  /\ (force args = true
      \/ (check args = false /\ fst (check_hardware_inhibitors w) = false)
      \/ (check args = false
          /\ system_update_check w = true
          /\ dbus_notify w = true
          /\ confirmed w = true)).

(** Root, notifications disabled, nobody logged in, and a system-scope
    tool that fails after printing a byte that is not UTF-8. *)
Definition root_tool_garbled : World := {|
  getuid := 0;
  dbus_notify := false;
  environ_XDG_RUNTIME_DIR := None;
  isdir := fun _ => false;
  acquire_lock := fun _ => Some 3;
  get_active_sessions := Some [];
  get_xdg_runtime_dir := fun _ => None;
  subprocess_run :=
    fun _ => {| returncode := 1;
                stdout := String (ascii_of_nat 255) EmptyString |};
  system_update_check := true;
  pending_deployment_check := false;
  check_hardware_inhibitors := (false, [])
|}.

Definition carol : session := {| User := 1002; Name := "carol" |}.

(** Root with three sessions: the update tool fails with status 1 for every
    scope, and the runtime directory of the second session does not
    resolve. *)
Definition second_session_unresolved : World := {|
  getuid := 0;
  dbus_notify := false;
  environ_XDG_RUNTIME_DIR := None;
  isdir := fun _ => false;
  acquire_lock := fun _ => Some 3;
  get_active_sessions := Some [alice; bob; carol];
  get_xdg_runtime_dir :=
    fun uid => if uid =? 1001 then None else Some "/run/user/1000";
  subprocess_run := fun _ => {| returncode := 1; stdout := "failed" |};
  system_update_check := true;
  pending_deployment_check := false;
  check_hardware_inhibitors := (false, [])
|}.


Definition system_wait_args : cli_args :=
  {| force := false; check := false; updatecheck := false; wait := true;
     config := None; system := true |}.

(** * Properties *)

(** ** The monad *)

Lemma trace_bind {A B} (m : M A) (k : A -> M B) :
  trace (bind m k) =
  (trace m ++ match outcome m with
              | Ret a => trace (k a)
              | _ => []
              end)%list.
Proof.
  destruct m as [t [a | e | c]]; cbn; try (now rewrite app_nil_r).
  destruct (k a); reflexivity.
Qed.

Lemma outcome_bind {A B} (m : M A) (k : A -> M B) :
  outcome (bind m k) =
  match outcome m with
  | Ret a => outcome (k a)
  | Raise e => Raise e
  | Exit c => Exit c
  end.
Proof.
  destruct m as [t [a | e | c]]; cbn; try reflexivity.
  destruct (k a); reflexivity.
Qed.

Lemma M_eta {A} (m : M A) : m = (trace m, outcome m).
Proof. destruct m; reflexivity. Qed.

Lemma trace_run w argv : trace (run w argv) = [EvRun argv].
Proof. reflexivity. Qed.

Lemma outcome_run w argv : outcome (run w argv) = Ret (subprocess_run w argv).
Proof. reflexivity. Qed.

Lemma trace_log lvl msg : trace (log lvl msg) = [EvLog lvl msg].
Proof. reflexivity. Qed.

Lemma outcome_log lvl msg : outcome (log lvl msg) = Ret tt.
Proof. reflexivity. Qed.

Lemma trace_emit e : trace (emit e) = [e].
Proof. reflexivity. Qed.

Lemma outcome_emit e : outcome (emit e) = Ret tt.
Proof. reflexivity. Qed.

Lemma trace_ret {A} (a : A) : trace (ret a) = [].
Proof. reflexivity. Qed.

Lemma outcome_ret {A} (a : A) : outcome (ret a) = Ret a.
Proof. reflexivity. Qed.

Lemma trace_raise {A} e : trace (@raise A e) = [].
Proof. reflexivity. Qed.

Lemma outcome_raise {A} e : outcome (@raise A e) = Raise e.
Proof. reflexivity. Qed.

Lemma trace_os_exit {A} c : trace (@os_exit A c) = [].
Proof. reflexivity. Qed.

Lemma outcome_os_exit {A} c : outcome (@os_exit A c) = Exit c.
Proof. reflexivity. Qed.

Create Rewrite HintDb monad.
#[local] Hint Rewrite @trace_bind @outcome_bind trace_run outcome_run
  trace_log outcome_log trace_emit outcome_emit @trace_ret @outcome_ret
  @trace_raise @outcome_raise @trace_os_exit @outcome_os_exit : monad.

Ltac step :=
  autorewrite with monad; rewrite ?app_nil_r, <- ?app_assoc; cbn [app].

Lemma count_app p t1 t2 : count p (t1 ++ t2) = (count p t1 + count p t2)%nat.
Proof. unfold count. now rewrite filter_app, List.length_app. Qed.

Lemma count_cons p e t :
  count p (e :: t) = ((if p e then 1 else 0) + count p t)%nat.
Proof. unfold count. cbn. now destruct (p e). Qed.

Lemma count_nil p : count p [] = 0%nat.
Proof. reflexivity. Qed.

Ltac counts :=
  repeat (rewrite count_cons || rewrite count_app || rewrite count_nil).

Lemma count_none p (Q : event -> Prop) t :
  (forall e, Q e -> p e = false) -> Forall Q t -> count p t = 0%nat.
Proof.
  intros Hq H. induction H as [| e t He _ IH]; [reflexivity |].
  unfold count in *. cbn. now rewrite (Hq e He).
Qed.

(** ** What a [subprocess.run] executes *)

Lemma command_notify_send title body actions urgency :
  command (notify_send_args title body actions urgency)
  = notify_send_args title body actions urgency.
Proof. reflexivity. Qed.

Lemma command_notify_user user d title body actions urgency :
  command (notify_user_args user d
           ++ notify_send_args title body actions urgency)%list
  = notify_send_args title body actions urgency.
Proof. reflexivity. Qed.

Lemma command_topgrade_user user d :
  command (topgrade_user_argv user d)
  = [ "/usr/bin/topgrade"; "--config";
      "/usr/share/ublue-update/topgrade-user.toml" ].
Proof. reflexivity. Qed.

(** ** The session resolver and the notification dispatcher *)

Lemma outcome_active_sessions w :
  exists users, outcome (active_sessions_or_empty w) = Ret users.
Proof.
  unfold active_sessions_or_empty.
  destruct (get_active_sessions w) as [users |]; cbn; eauto.
Qed.

Lemma trace_active_sessions w args :
  Forall (notify_event args) (trace (active_sessions_or_empty w)).
Proof.
  unfold active_sessions_or_empty.
  destruct (get_active_sessions w); cbn; repeat constructor.
Qed.

Lemma outcome_notify_users w args actions users :
  exists r, outcome (notify_users w args actions users) = Ret r.
Proof.
  induction users as [| user rest IH]; cbn; eauto.
  destruct (get_xdg_runtime_dir w (User user)); cbn; eauto.
  destruct actions; cbn; eauto.
  destruct IH as [r IH]. exists r.
  rewrite (M_eta (notify_users w args [] rest)), IH. reflexivity.
Qed.

Lemma trace_notify_users w title body actions urgency users :
  Forall (notify_event (notify_send_args title body actions urgency))
         (trace (notify_users w (notify_send_args title body actions urgency)
                   actions users)).
Proof.
  induction users as [| user rest IH]; [constructor |].
  cbn [notify_users]. rewrite trace_bind. cbn [emit trace outcome fst snd app].
  constructor; [exact I |].
  destruct (get_xdg_runtime_dir w (User user)) as [d |].
  - step.
    constructor; [apply command_notify_user |].
    destruct actions; [exact IH | constructor].
  - cbn. repeat constructor.
Qed.

Lemma outcome_notify w title body actions urgency :
  exists r, outcome (notify w title body actions urgency) = Ret r.
Proof.
  unfold notify. destruct (dbus_notify w); cbn [negb]; [| cbn; eauto].
  destruct (getuid w =? 0); [| cbn; eauto].
  rewrite outcome_bind.
  destruct (outcome_active_sessions w) as [users ->].
  apply outcome_notify_users.
Qed.

Lemma trace_notify w title body actions urgency :
  Forall (notify_event (notify_send_args title body actions urgency))
         (trace (notify w title body actions urgency)).
Proof.
  unfold notify. destruct (dbus_notify w); cbn [negb]; [| constructor].
  destruct (getuid w =? 0).
  - rewrite trace_bind. apply Forall_app. split.
    + apply trace_active_sessions.
    + destruct (outcome_active_sessions w) as [users ->].
      apply trace_notify_users.
  - cbn. repeat constructor.
Qed.

(** ** The per-user loop *)

Lemma outcome_update_users_cases w users :
  outcome (update_users w users) = Ret tt
  \/ outcome (update_users w users) = Raise UnicodeDecodeError.
Proof.
  induction users as [| user rest IH]; [now left |].
  cbn [update_users]. rewrite outcome_bind. cbn [emit outcome snd].
  destruct (get_xdg_runtime_dir w (User user)) as [d |]; [| now left].
  step. unfold decode.
  destruct (utf8_valid (stdout (subprocess_run w (topgrade_user_argv user d))));
    step; [exact IH | now right].
Qed.

Lemma outcome_update_users w users :
  passes_decode w users -> outcome (update_users w users) = Ret tt.
Proof.
  unfold passes_decode.
  induction users as [| user rest IH]; [reflexivity |].
  cbn [update_users reached]. rewrite outcome_bind. cbn [emit outcome snd].
  destruct (get_xdg_runtime_dir w (User user)) as [d |]; [| reflexivity].
  intros H. inversion H as [| p l Hp Hl]; subst. cbn [fst snd] in Hp.
  step. unfold decode. rewrite Hp. step. now apply IH.
Qed.

Lemma trace_update_users w users :
  Forall user_pass_event (trace (update_users w users)).
Proof.
  induction users as [| user rest IH]; [constructor |].
  cbn [update_users]. rewrite trace_bind. cbn [emit trace outcome fst snd app].
  constructor; [exact I |].
  destruct (get_xdg_runtime_dir w (User user)) as [d |].
  - step.
    constructor; [exact I |].
    constructor; [apply command_topgrade_user |].
    unfold decode.
    destruct (utf8_valid
                (stdout (subprocess_run w (topgrade_user_argv user d))));
      step; [| constructor].
    constructor; [exact I | exact IH].
  - cbn. repeat constructor.
Qed.

(** ** The lock path *)

(** C9 (as amended): the lock path is ["/run/ublue-update.lock"] for root;
    for a non-root caller whose [XDG_RUNTIME_DIR] is set it is
    [<dir>/ublue-update.lock] when that value names a directory and the
    fixed system path otherwise; the chosen path is the one handed to
    [acquire_lock], as the first external call of [run_updates]. *)
Theorem filelock_path_by_scope w :
  (getuid w = 0 -> filelock_path w = ret "/run/ublue-update.lock") /\
  (forall d, getuid w <> 0 -> environ_XDG_RUNTIME_DIR w = Some d ->
     filelock_path w =
     ret (if isdir w d then d ++ "/ublue-update.lock"
          else "/run/ublue-update.lock")) /\
  (forall path system system_update_available,
     filelock_path w = ret path ->
     exists rest,
       trace (run_updates w system system_update_available)
       = EvAcquireLock path (acquire_lock w path) :: rest).
Proof.
  repeat split.
  - intros H. unfold filelock_path. now rewrite H.
  - intros d H E. unfold filelock_path.
    apply Z.eqb_neq in H. rewrite H, E. cbn. now destruct (isdir w d).
  - intros path system avail E. unfold run_updates. rewrite E.
    step. eexists. reflexivity.
Qed.

Lemma filelock_path_by_scope_witness :
  getuid desktop_user <> 0 /\
  filelock_path desktop_user = ret "/run/user/1000/ublue-update.lock" /\
  exists rest,
    trace (run_updates desktop_user false true)
    = EvAcquireLock "/run/user/1000/ublue-update.lock" (Some 3) :: rest.
Proof.
  split; [cbn; lia |].
  split.
  - apply (proj1 (proj2 (filelock_path_by_scope desktop_user))
             "/run/user/1000"); [cbn; lia | reflexivity].
  - apply (proj2 (proj2 (filelock_path_by_scope desktop_user))
             "/run/user/1000/ublue-update.lock" false true).
    reflexivity.
Defined.

(** C9, as stated, fails: a non-root caller whose [XDG_RUNTIME_DIR] is not
    a directory gets the fixed system path, not a path under a runtime
    directory. *)
Lemma filelock_path_nonroot_system_path :
  getuid stale_runtime_dir <> 0 /\
  environ_XDG_RUNTIME_DIR stale_runtime_dir = Some "/run/user/1000" /\
  filelock_path stale_runtime_dir = ret "/run/ublue-update.lock" /\
  startswith "/run/user/1000" "/run/ublue-update.lock" = false.
Proof. repeat split. cbn. lia. Qed.

(** ** Runs of a non-root caller *)

(** C10 (as amended): a non-root invocation without the system-only flag
    never runs a subprocess (no update-mechanics tool, no notification).
    With [XDG_RUNTIME_DIR] set and the lock free, it acquires the lock,
    waits for transactions, releases the lock and exits with status 0; with
    the lock already held it raises "already running" right after the
    attempt. *)
Theorem run_updates_nonroot_user_run w system_update_available :
  getuid w <> 0 ->
  count is_run (trace (run_updates w false system_update_available)) = 0%nat
  /\ forall d fd,
       environ_XDG_RUNTIME_DIR w = Some d ->
       let path := if isdir w d then d ++ "/ublue-update.lock"
                   else "/run/ublue-update.lock" in
       (acquire_lock w path = Some fd ->
        run_updates w false system_update_available
        = ([EvAcquireLock path (Some fd); EvTransactionWait;
            EvReleaseLock fd],
           Exit 0))
       /\ (acquire_lock w path = None ->
           run_updates w false system_update_available
           = ([EvAcquireLock path None],
              Raise (Exception "updates are already running for this user"))).
Proof.
  intros Huid. apply Z.eqb_neq in Huid.
  unfold run_updates, filelock_path. rewrite Huid. cbn [negb].
  destruct (environ_XDG_RUNTIME_DIR w) as [d |].
  - split.
    + destruct (isdir w d); cbn;
        match goal with |- context [acquire_lock w ?p] =>
          destruct (acquire_lock w p) end; reflexivity.
    + intros d' fd [= <-].
      destruct (isdir w d); split; intros H; cbn in H |- *; rewrite H;
        reflexivity.
  - split; [reflexivity | discriminate].
Qed.

Lemma run_updates_nonroot_user_run_witness :
  run_updates desktop_user false true
  = ([EvAcquireLock "/run/user/1000/ublue-update.lock" (Some 3);
      EvTransactionWait; EvReleaseLock 3], Exit 0).
Proof.
  refine (proj1 (proj2 (run_updates_nonroot_user_run desktop_user true _)
                   "/run/user/1000" 3 eq_refl) eq_refl).
  cbn. lia.
Defined.

(** C10, as stated, fails: with the lock held by another instance the run
    neither waits, nor releases, nor exits with status 0. *)
Lemma run_updates_nonroot_lock_held :
  getuid lock_held <> 0 /\
  run_updates lock_held false true
  = ([EvAcquireLock "/run/user/1000/ublue-update.lock" None],
     Raise (Exception "updates are already running for this user")).
Proof. split; [cbn; lia | reflexivity]. Qed.



(** ** The run of root, piece by piece *)

Lemma outcome_active_sessions_eq w :
  outcome (active_sessions_or_empty w) = Ret (resolved_sessions w).
Proof.
  unfold active_sessions_or_empty, resolved_sessions.
  destruct (get_active_sessions w); reflexivity.
Qed.

Lemma run_updates_root w (system system_update_available : bool) fd :
  getuid w = 0 ->
  acquire_lock w "/run/ublue-update.lock" = Some fd ->
  run_updates w system system_update_available
  = (([EvAcquireLock "/run/ublue-update.lock" (Some fd); EvTransactionWait]
      ++ trace (progress w)
      ++ trace (active_sessions_or_empty w)
      ++ EvRun topgrade_system_argv
         :: fst (after_system w system system_update_available fd))%list,
     snd (after_system w system system_update_available fd)).
Proof.
  intros Huid Hlock.
  rewrite (M_eta (run_updates w system system_update_available)).
  unfold run_updates, filelock_path. rewrite Huid. cbn [Z.eqb negb].
  step. rewrite Hlock. step.
  fold (progress w).
  destruct (outcome_notify w "System Updater"
              "System passed checks, updating ..." [] "normal") as [r Hr].
  fold (progress w) in Hr. rewrite Hr. step.
  rewrite outcome_active_sessions_eq. step.
  unfold after_system, decode.
  destruct (utf8_valid (stdout (subprocess_run w topgrade_system_argv)));
    step; [| reflexivity].
  destruct (returncode (subprocess_run w topgrade_system_argv) =? 0);
    cbn [negb]; step; [| reflexivity].
  destruct (outcome_update_users_cases w
              (if system then [] else resolved_sessions w)) as [-> | ->];
    step; [| reflexivity].
  unfold after_users. fold (reboot_prompt w).
  destruct (pending_deployment_check w && system_update_available
            && dbus_notify w); step; [| reflexivity].
  destruct (outcome_notify w "System Updater"
    "System update complete, pending changes will take effect after reboot. Reboot now?"
    [reboot_action] "normal") as [r' Hr'].
  fold (reboot_prompt w) in Hr'. rewrite Hr'.
  destruct r' as [o |]; step; [| reflexivity].
  destruct (utf8_valid (stdout o)); step; [| reflexivity].
  destruct (str_in "universal-blue-update-reboot" (stdout o)); step;
    reflexivity.
Qed.

(** ** What the pieces cannot contain *)

Lemma notify_event_on_command args p e :
  p args = false -> notify_event args e -> on_command p e = false.
Proof.
  intros Hp. destruct e; cbn; try reflexivity. now intros ->.
Qed.

Lemma notify_event_not_lock args e :
  notify_event args e ->
  is_acquire_attempt e = false /\ is_acquired e = false
  /\ is_release e = false.
Proof. destruct e; cbn; intuition. Qed.

Lemma user_pass_event_on_command p e :
  p [ "/usr/bin/topgrade"; "--config";
      "/usr/share/ublue-update/topgrade-user.toml" ] = false ->
  user_pass_event e -> on_command p e = false.
Proof.
  intros Hp. destruct e; cbn; try reflexivity. now intros ->.
Qed.

Lemma user_pass_event_not_lock e :
  user_pass_event e ->
  is_acquire_attempt e = false /\ is_acquired e = false
  /\ is_release e = false.
Proof. destruct e; cbn; intuition. Qed.

Lemma count_notify_on_command w title body actions urgency p :
  p (notify_send_args title body actions urgency) = false ->
  count (on_command p) (trace (notify w title body actions urgency)) = 0%nat.
Proof.
  intros Hp. eapply count_none; [| apply trace_notify].
  intros e. now apply notify_event_on_command.
Qed.

Lemma count_sessions_on_command w p :
  count (on_command p) (trace (active_sessions_or_empty w)) = 0%nat.
Proof.
  unfold active_sessions_or_empty.
  destruct (get_active_sessions w); reflexivity.
Qed.

(** ** After the system pass *)

Lemma count_update_users_on_command w users p :
  p [ "/usr/bin/topgrade"; "--config";
      "/usr/share/ublue-update/topgrade-user.toml" ] = false ->
  count (on_command p) (trace (update_users w users)) = 0%nat.
Proof.
  intros Hp. eapply count_none; [| apply trace_update_users].
  intros e. now apply user_pass_event_on_command.
Qed.

Lemma count_notify_attempt w title body actions urgency :
  count is_acquire_attempt (trace (notify w title body actions urgency))
  = 0%nat.
Proof.
  eapply count_none; [| apply trace_notify].
  intros e He. apply (notify_event_not_lock _ e He).
Qed.

Lemma count_update_users_attempt w users :
  count is_acquire_attempt (trace (update_users w users)) = 0%nat.
Proof.
  eapply count_none; [| apply trace_update_users].
  intros e He. apply (user_pass_event_not_lock e He).
Qed.

Lemma count_notify_lock w title body actions urgency :
  count is_acquired (trace (notify w title body actions urgency)) = 0%nat
  /\ count is_release (trace (notify w title body actions urgency)) = 0%nat.
Proof.
  split; (eapply count_none; [| apply trace_notify]);
    intros e He; apply (notify_event_not_lock _ e He).
Qed.

Lemma count_sessions_lock w :
  count is_acquired (trace (active_sessions_or_empty w)) = 0%nat
  /\ count is_release (trace (active_sessions_or_empty w)) = 0%nat.
Proof.
  unfold active_sessions_or_empty.
  destruct (get_active_sessions w); split; reflexivity.
Qed.

Lemma count_update_users_lock w users :
  count is_acquired (trace (update_users w users)) = 0%nat
  /\ count is_release (trace (update_users w users)) = 0%nat.
Proof.
  split; (eapply count_none; [| apply trace_update_users]);
    intros e He; apply (user_pass_event_not_lock e He).
Qed.

Lemma count_after_system p w (system system_update_available : bool) fd :
  (forall lvl msg, p (EvLog lvl msg) = false) ->
  (forall msg, p (EvPrint msg) = false) ->
  p EvPendingDeploymentCheck = false ->
  count p (trace (update_users w
                    (if system then [] else resolved_sessions w))) = 0%nat ->
  count p (fst (after_users w system_update_available fd)) = 0%nat ->
  count p (fst (after_system w system system_update_available fd)) = 0%nat.
Proof.
  intros Hlog Hprint Hpend Husers Hafter. unfold after_system.
  destruct (utf8_valid (stdout (subprocess_run w topgrade_system_argv)));
    [| reflexivity].
  destruct (returncode (subprocess_run w topgrade_system_argv) =? 0).
  - destruct (outcome (update_users w
                         (if system then [] else resolved_sessions w)));
      cbn [fst]; counts; rewrite ?Hlog, ?Hpend, ?Husers, ?Hafter;
      reflexivity.
  - cbn [fst]. counts. now rewrite ?Hlog, ?Hprint.
Qed.

Lemma count_after_users_attempt w (system_update_available : bool) fd :
  count is_acquire_attempt (fst (after_users w system_update_available fd))
  = 0%nat.
Proof.
  unfold after_users.
  destruct (pending_deployment_check w && system_update_available
            && dbus_notify w); [| reflexivity].
  assert (H : count is_acquire_attempt (trace (reboot_prompt w)) = 0%nat)
    by apply count_notify_attempt.
  destruct (outcome (reboot_prompt w)) as [[o |] | e | c]; cbn [fst];
    try exact H.
  destruct (utf8_valid (stdout o)); cbn [fst]; [| exact H].
  destruct (str_in "universal-blue-update-reboot" (stdout o)); cbn [fst];
    counts; now rewrite H.
Qed.

Lemma count_after_users_on_command w (system_update_available : bool) fd p :
  p (notify_send_args "System Updater"
       "System update complete, pending changes will take effect after reboot. Reboot now?"
       [reboot_action] "normal") = false ->
  p ["systemctl"; "reboot"] = false ->
  count (on_command p) (fst (after_users w system_update_available fd))
  = 0%nat.
Proof.
  intros Hprompt Hreboot. unfold after_users.
  destruct (pending_deployment_check w && system_update_available
            && dbus_notify w); [| reflexivity].
  assert (H : count (on_command p) (trace (reboot_prompt w)) = 0%nat)
    by (apply count_notify_on_command; exact Hprompt).
  destruct (outcome (reboot_prompt w)) as [[o |] | e | c]; cbn [fst];
    try exact H.
  destruct (utf8_valid (stdout o)); cbn [fst]; [| exact H].
  destruct (str_in "universal-blue-update-reboot" (stdout o)); cbn [fst];
    counts; rewrite H; [| reflexivity].
  change (on_command p (EvRun ["systemctl"; "reboot"]))
    with (p ["systemctl"; "reboot"]).
  now rewrite Hreboot.
Qed.

Lemma count_after_system_attempt w (system system_update_available : bool) fd :
  count is_acquire_attempt
    (fst (after_system w system system_update_available fd)) = 0%nat.
Proof.
  apply count_after_system; try reflexivity.
  - apply count_update_users_attempt.
  - apply count_after_users_attempt.
Qed.

Lemma count_after_system_on_command
    w (system system_update_available : bool) fd p :
  p [ "/usr/bin/topgrade"; "--config";
      "/usr/share/ublue-update/topgrade-user.toml" ] = false ->
  p (notify_send_args "System Updater"
       "System update complete, pending changes will take effect after reboot. Reboot now?"
       [reboot_action] "normal") = false ->
  p ["systemctl"; "reboot"] = false ->
  count (on_command p)
    (fst (after_system w system system_update_available fd)) = 0%nat.
Proof.
  intros Huser Hprompt Hreboot. apply count_after_system; try reflexivity.
  - now apply count_update_users_on_command.
  - now apply count_after_users_on_command.
Qed.


Lemma count_after_users_lock w (system_update_available : bool) fd :
  count is_acquired (fst (after_users w system_update_available fd)) = 0%nat
  /\ (count is_release (fst (after_users w system_update_available fd))
      <= 1)%nat
  /\ (snd (after_users w system_update_available fd) = Exit 0 ->
      count is_release (fst (after_users w system_update_available fd))
      = 1%nat).
Proof.
  unfold after_users.
  destruct (pending_deployment_check w && system_update_available
            && dbus_notify w); [| cbn; repeat split; lia].
  destruct (count_notify_lock w "System Updater"
    "System update complete, pending changes will take effect after reboot. Reboot now?"
    [reboot_action] "normal") as [Ha Hr].
  fold (reboot_prompt w) in Ha, Hr.
  destruct (outcome (reboot_prompt w)) as [[o |] | e | c]; cbn [fst snd];
    try (rewrite Ha, Hr; repeat split; try lia; discriminate).
  destruct (utf8_valid (stdout o)); cbn [fst snd];
    [| rewrite Ha, Hr; repeat split; try lia; discriminate].
  destruct (str_in "universal-blue-update-reboot" (stdout o)); cbn [fst snd];
    counts; rewrite Ha, Hr; cbn; repeat split; lia.
Qed.

Lemma count_after_system_lock w (system system_update_available : bool) fd :
  count is_acquired (fst (after_system w system system_update_available fd))
  = 0%nat
  /\ (count is_release
        (fst (after_system w system system_update_available fd)) <= 1)%nat
  /\ (snd (after_system w system system_update_available fd) = Exit 0 ->
      count is_release
        (fst (after_system w system system_update_available fd)) = 1%nat).
Proof.
  unfold after_system.
  destruct (utf8_valid (stdout (subprocess_run w topgrade_system_argv)));
    [| cbn; repeat split; try lia; discriminate].
  destruct (returncode (subprocess_run w topgrade_system_argv) =? 0) eqn:Hrc.
  - destruct (count_update_users_lock w
                (if system then [] else resolved_sessions w)) as [Ha Hr].
    destruct (count_after_users_lock w system_update_available fd)
      as (Ha' & Hle & Hone).
    destruct (outcome_update_users_cases w
                (if system then [] else resolved_sessions w)) as [-> | ->];
      cbn [fst snd]; counts; rewrite Ha, Hr; cbn.
    + rewrite Ha'. split; [reflexivity |]. split; [lia |].
      intros H. rewrite (Hone H). reflexivity.
    + repeat split; try lia; discriminate.
  - apply Z.eqb_neq in Hrc. cbn. repeat split; try lia.
    intros [= H]. contradiction.
Qed.

Lemma outcome_after_system w (system system_update_available : bool) fd :
  snd (after_system w system system_update_available fd) = Exit 0
  \/ (returncode (subprocess_run w topgrade_system_argv) <> 0
      /\ snd (after_system w system system_update_available fd)
         = Exit (returncode (subprocess_run w topgrade_system_argv)))
  \/ exists e,
       snd (after_system w system system_update_available fd) = Raise e.
Proof.
  unfold after_system.
  destruct (utf8_valid (stdout (subprocess_run w topgrade_system_argv)));
    [| right; right; cbn [snd]; eauto].
  destruct (returncode (subprocess_run w topgrade_system_argv) =? 0) eqn:Hrc.
  - destruct (outcome_update_users_cases w
                (if system then [] else resolved_sessions w)) as [-> | ->];
      [| right; right; cbn [snd]; eauto].
    cbn [snd]. unfold after_users.
    destruct (pending_deployment_check w && system_update_available
              && dbus_notify w); [| now left].
    destruct (outcome (reboot_prompt w)) as [[o |] | e | c]; cbn [snd];
      try (right; right; eauto; fail).
    destruct (utf8_valid (stdout o)); [| right; right; cbn [snd]; eauto].
    destruct (str_in "universal-blue-update-reboot" (stdout o)); now left.
  - apply Z.eqb_neq in Hrc. right. left. now split.
Qed.

(** ** Failure of the system-scope update tool *)

(** C3 (as amended): in every root run in which the system-scope update
    tool is invoked and returns a non-zero status, no per-user pass is
    started; when the tool's output is well-formed UTF-8 the output is
    printed and the process exits with the tool's status; when it is not,
    decoding it for the log raises [UnicodeDecodeError] before the status is
    looked at. *)
Theorem system_tool_failure_is_fatal w (system system_update_available : bool) :
  getuid w = 0 ->
  In (EvRun topgrade_system_argv)
     (trace (run_updates w system system_update_available)) ->
  returncode (subprocess_run w topgrade_system_argv) <> 0 ->
  let out := subprocess_run w topgrade_system_argv in
  count is_user_pass
    (trace (run_updates w system system_update_available)) = 0%nat
  /\ (utf8_valid (stdout out) = true ->
      outcome (run_updates w system system_update_available)
      = Exit (returncode out)
      /\ exists pre,
           trace (run_updates w system system_update_available)
           = (pre ++ [EvRun topgrade_system_argv;
                      EvLog DEBUG (stdout out);
                      EvPrint ("topgrade returned code "
                               ++ str_of_Z (returncode out)
                               ++ ", program output:")%string;
                      EvPrint (stdout out)])%list)
  /\ (utf8_valid (stdout out) = false ->
      outcome (run_updates w system system_update_available)
      = Raise UnicodeDecodeError
      /\ exists pre,
           trace (run_updates w system system_update_available)
           = (pre ++ [EvRun topgrade_system_argv])%list).
Proof.
  intros Huid Hin Hrc out.
  destruct (acquire_lock w "/run/ublue-update.lock") as [fd |] eqn:Hlock.
  - rewrite (run_updates_root w system system_update_available fd Huid Hlock).
    apply Z.eqb_neq in Hrc. unfold after_system. fold out. fold out in Hrc.
    rewrite Hrc. cbn [trace outcome fst snd].
    assert (Hhead :
      count is_user_pass
        ([EvAcquireLock "/run/ublue-update.lock" (Some fd); EvTransactionWait]
         ++ trace (progress w) ++ trace (active_sessions_or_empty w)
         ++ [EvRun topgrade_system_argv]) = 0%nat).
    { counts. unfold is_user_pass, progress.
      rewrite count_notify_on_command by reflexivity.
      rewrite count_sessions_on_command. reflexivity. }
    destruct (utf8_valid (stdout out)); cbn [fst snd].
    + split; [| split; [| discriminate]].
      * revert Hhead. counts. cbn [is_user_pass on_command]. lia.
      * intros _. split; [reflexivity |].
        exists ([EvAcquireLock "/run/ublue-update.lock" (Some fd);
                 EvTransactionWait]
                ++ trace (progress w)
                ++ trace (active_sessions_or_empty w))%list.
        now rewrite <- !app_assoc.
    + split; [| split; [discriminate |]].
      * revert Hhead. counts. lia.
      * intros _. split; [reflexivity |].
        exists ([EvAcquireLock "/run/ublue-update.lock" (Some fd);
                 EvTransactionWait]
                ++ trace (progress w)
                ++ trace (active_sessions_or_empty w))%list.
        now rewrite <- !app_assoc.
  - exfalso. revert Hin. unfold run_updates, filelock_path.
    rewrite Huid. cbn [Z.eqb negb]. step. rewrite Hlock. cbn.
    intros [H | []]. discriminate H.
Qed.

Lemma system_tool_failure_is_fatal_witness :
  count is_user_pass (trace (run_updates root_tool_fails false true))
  = 0%nat
  /\ outcome (run_updates root_tool_fails false true) = Exit 1
  /\ (exists pre,
        trace (run_updates root_tool_fails false true)
        = (pre ++ [EvRun topgrade_system_argv;
                   EvLog DEBUG "boom";
                   EvPrint "topgrade returned code 1, program output:";
                   EvPrint "boom"])%list).
Proof.
  destruct (system_tool_failure_is_fatal root_tool_fails false true)
    as [H1 [H2 _]].
  - reflexivity.
  - cbn. do 3 right. left. reflexivity.
  - cbn. lia.
  - split; [exact H1 |]. apply H2. reflexivity.
Defined.

(** C3, as stated, fails: the system-scope tool returns status 1 after
    printing a byte that is not UTF-8, and the run ends in
    [UnicodeDecodeError] instead of printing the output and exiting with
    status 1. *)
Lemma system_tool_failure_garbled_output :
  getuid root_tool_garbled = 0
  /\ returncode (subprocess_run root_tool_garbled topgrade_system_argv) = 1
  /\ run_updates root_tool_garbled false true
     = ([EvAcquireLock "/run/ublue-update.lock" (Some 3);
         EvTransactionWait;
         EvGetActiveSessions;
         EvRun topgrade_system_argv],
        Raise UnicodeDecodeError).
Proof. repeat split. Qed.

(** ** The lock on the fatal path *)

(** C1 fails on the code: when the system-scope update tool fails, the
    process leaves through [os._exit] with the lock acquired and never
    released. *)
Theorem fatal_exit_skips_release :
  run_updates root_tool_fails false true
  = ([EvAcquireLock "/run/ublue-update.lock" (Some 3);
      EvTransactionWait;
      EvGetActiveSessions;
      EvRun topgrade_system_argv;
      EvLog DEBUG "boom";
      EvPrint "topgrade returned code 1, program output:";
      EvPrint "boom"],
     Exit 1)
  /\ count is_acquired (trace (run_updates root_tool_fails false true))
     = 1%nat
  /\ count is_release (trace (run_updates root_tool_fails false true))
     = 0%nat.
Proof. repeat split. Qed.

(** On the path that reaches [os._exit(0)] the lock is taken once and
    released once: the release that the fatal path leaves out. *)
Lemma normal_exit_releases_once w (system system_update_available : bool) :
  outcome (run_updates w system system_update_available) = Exit 0 ->
  count is_acquired (trace (run_updates w system system_update_available))
  = 1%nat
  /\ count is_release (trace (run_updates w system system_update_available))
     = 1%nat.
Proof.
  destruct (Z.eq_dec (getuid w) 0) as [Huid | Huid].
  - destruct (acquire_lock w "/run/ublue-update.lock") as [fd |] eqn:Hlock.
    + rewrite (run_updates_root w system system_update_available fd Huid Hlock).
      cbn [trace outcome fst snd]. intros Hexit.
      destruct (count_after_system_lock w system system_update_available fd)
        as (Ha & _ & Hone).
      counts. unfold progress.
      destruct (count_notify_lock w "System Updater"
                  "System passed checks, updating ..." [] "normal")
        as [-> ->].
      destruct (count_sessions_lock w) as [-> ->].
      rewrite Ha, (Hone Hexit). now split.
    + unfold run_updates, filelock_path. rewrite Huid. cbn [Z.eqb negb].
      step. rewrite Hlock. cbn. discriminate.
  - apply Z.eqb_neq in Huid. unfold run_updates, filelock_path.
    rewrite Huid. cbn [negb].
    destruct (environ_XDG_RUNTIME_DIR w) as [d |]; [| cbn; discriminate].
    destruct (isdir w d); cbn;
      match goal with |- context [acquire_lock w ?p] =>
        destruct (acquire_lock w p) end; cbn;
      destruct system; cbn; try discriminate; now split.
Qed.

(** ** Isolation between the per-user passes *)

Lemma reached_all w users :
  Forall (fun u => get_xdg_runtime_dir w (User u) <> None) users ->
  map fst (reached w users) = users.
Proof.
  induction 1 as [| u users Hu _ IH]; [reflexivity |].
  cbn. destruct (get_xdg_runtime_dir w (User u)); [| contradiction].
  cbn. now rewrite IH.
Qed.

Lemma reached_app w pre tail :
  Forall (fun u => get_xdg_runtime_dir w (User u) <> None) pre ->
  reached w (pre ++ tail) = (reached w pre ++ reached w tail)%list.
Proof.
  induction 1 as [| u pre Hu _ IH]; [reflexivity |].
  cbn. destruct (get_xdg_runtime_dir w (User u)); [| contradiction].
  cbn. now rewrite IH.
Qed.

Lemma update_users_app w pre tail :
  Forall (fun u => get_xdg_runtime_dir w (User u) <> None) pre ->
  passes_decode w pre ->
  trace (update_users w (pre ++ tail))
  = (trace (update_users w pre) ++ trace (update_users w tail))%list
  /\ outcome (update_users w (pre ++ tail)) = outcome (update_users w tail).
Proof.
  unfold passes_decode. intros Hpre. induction Hpre as [| u pre Hu _ IH].
  - intros _. split; reflexivity.
  - cbn [app update_users reached].
    destruct (get_xdg_runtime_dir w (User u)) as [d |]; [| contradiction].
    intros H. inversion H as [| p l Hp Hl]; subst. cbn [fst snd] in Hp.
    destruct (IH Hl) as [IHt IHo].
    step. unfold decode. rewrite Hp. step. rewrite IHt, IHo.
    split; reflexivity.
Qed.

(** C4 (as amended): the per-user loop runs the update tool, in order, for
    the sessions that come before the first one whose runtime directory does
    not resolve, whatever exit status any of these runs has, and then returns
    normally, provided the output of each run is well-formed UTF-8; that is
    every session when all directories resolve. A session whose directory
    does not resolve is logged and ends the loop: no later session is
    updated. A run whose output is not well-formed UTF-8 ends the loop in
    [UnicodeDecodeError]. *)
Theorem per_user_passes w users :
  (passes_decode w users ->
   outcome (update_users w users) = Ret tt
   /\ filter is_run (trace (update_users w users))
      = map (fun p => EvRun (topgrade_user_argv (fst p) (snd p)))
            (reached w users))
  /\ (Forall (fun u => get_xdg_runtime_dir w (User u) <> None) users ->
      map fst (reached w users) = users)
  /\ (forall pre user rest,
        users = (pre ++ user :: rest)%list ->
        Forall (fun u => get_xdg_runtime_dir w (User u) <> None) pre ->
        passes_decode w pre ->
        (get_xdg_runtime_dir w (User user) = None ->
         map fst (reached w users) = pre
         /\ outcome (update_users w users) = Ret tt
         /\ trace (update_users w users)
            = (trace (update_users w pre)
               ++ [EvGetXdgRuntimeDir (User user);
                   EvLog ERROR ("failed to get xdg_runtime_dir for user: "
                                ++ Name user)%string])%list)
        /\ (forall d,
              get_xdg_runtime_dir w (User user) = Some d ->
              utf8_valid
                (stdout (subprocess_run w (topgrade_user_argv user d)))
              = false ->
              outcome (update_users w users) = Raise UnicodeDecodeError
              /\ trace (update_users w users)
                 = (trace (update_users w pre)
                    ++ [EvGetXdgRuntimeDir (User user);
                        EvLog INFO ("Running update for user: '"
                                    ++ Name user ++ "'")%string;
                        EvRun (topgrade_user_argv user d)])%list)).
Proof.
  split; [| split; [apply reached_all |]].
  - intros Hdec. split; [now apply outcome_update_users |].
    revert Hdec. unfold passes_decode.
    induction users as [| u users IH]; [reflexivity |].
    cbn [update_users reached]. step.
    destruct (get_xdg_runtime_dir w (User u)) as [d |]; [| reflexivity].
    intros H. inversion H as [| p l Hp Hl]; subst. cbn [fst snd] in Hp.
    step. unfold decode. rewrite Hp. step.
    cbn [filter is_run map fst snd]. now rewrite IH.
  - intros pre user rest -> Hpre Hdec.
    destruct (update_users_app w pre (user :: rest) Hpre Hdec) as [Ht Ho].
    rewrite Ht, Ho. split.
    + intros Huser. rewrite reached_app by exact Hpre.
      cbn [reached update_users]. rewrite Huser. rewrite app_nil_r.
      split; [now apply reached_all |]. split; reflexivity.
    + intros d Huser Hbad. cbn [update_users]. rewrite Huser.
      step. unfold decode. rewrite Hbad. step. split; reflexivity.
Qed.

Lemma per_user_passes_witness :
  map fst (reached second_session_unresolved [alice; bob; carol]) = [alice]
  /\ outcome (update_users second_session_unresolved [alice; bob; carol])
     = Ret tt
  /\ trace (update_users second_session_unresolved [alice; bob; carol])
     = (trace (update_users second_session_unresolved [alice])
        ++ [EvGetXdgRuntimeDir 1001;
            EvLog ERROR "failed to get xdg_runtime_dir for user: bob"])%list.
Proof.
  apply (proj1 (proj2 (proj2
           (per_user_passes second_session_unresolved [alice; bob; carol]))
           [alice] bob [carol] eq_refl
           ltac:(repeat constructor; discriminate)
           ltac:(repeat constructor))).
  reflexivity.
Defined.

(** C4, as stated, fails: when the first session's runtime directory does
    not resolve, the pass of the second session, whose directory does
    resolve, never runs, although the run itself completes. *)
Lemma unresolved_session_blocks_later_sessions :
  get_xdg_runtime_dir first_session_unresolved (User bob)
  = Some "/run/user/1001"
  /\ run_updates first_session_unresolved false true
     = ([EvAcquireLock "/run/ublue-update.lock" (Some 3);
         EvTransactionWait;
         EvGetActiveSessions;
         EvRun topgrade_system_argv;
         EvLog DEBUG "";
         EvGetXdgRuntimeDir 1000;
         EvLog ERROR "failed to get xdg_runtime_dir for user: alice";
         EvLog INFO "System update complete";
         EvPendingDeploymentCheck;
         EvReleaseLock 3],
        Exit 0)
  /\ count is_user_pass
       (trace (run_updates first_session_unresolved false true)) = 0%nat.
Proof. repeat split. Qed.

(** ** Notifications sent by root *)

(** C8 (as amended): invoked as root with notifications enabled and a
    non-empty action list, [notify] contacts at most one session, the first
    resolved one: it returns that session's response, whether or not the
    response names an action, and returns no response when there is no
    session or when the first session's runtime directory does not
    resolve. *)
Theorem notify_root_actions_first_session
    w title body action actions urgency :
  dbus_notify w = true ->
  getuid w = 0 ->
  let args := notify_send_args title body (action :: actions) urgency in
  notify w title body (action :: actions) urgency =
  match get_active_sessions w with
  | None =>
      ([EvGetActiveSessions;
        EvLog ERROR "failed to get active logind session info"], Ret None)
  | Some [] => ([EvGetActiveSessions], Ret None)
  | Some (user :: _) =>
      match get_xdg_runtime_dir w (User user) with
      | None =>
          ([EvGetActiveSessions;
            EvGetXdgRuntimeDir (User user);
            EvLog ERROR ("failed to get xdg_runtime_dir for user: "
                         ++ Name user)], Ret None)
      | Some d =>
          ([EvGetActiveSessions;
            EvGetXdgRuntimeDir (User user);
            EvRun (notify_user_args user d ++ args)%list],
           Ret (Some (subprocess_run w (notify_user_args user d ++ args)%list)))
      end
  end.
Proof.
  intros Hcfg Huid args. unfold notify. rewrite Hcfg, Huid. cbn [negb Z.eqb].
  fold args. unfold active_sessions_or_empty.
  destruct (get_active_sessions w) as [[| user rest] |]; try reflexivity.
  cbn [emit ret bind app notify_users].
  destruct (get_xdg_runtime_dir w (User user)); reflexivity.
Qed.

Lemma notify_root_actions_first_session_witness :
  notify second_session_confirms "System Updater" "Update now?"
    [confirm_action] "critical"
  = ([EvGetActiveSessions;
      EvGetXdgRuntimeDir 1000;
      EvRun (notify_user_args alice "/run/user/1000"
             ++ notify_send_args "System Updater" "Update now?"
                  [confirm_action] "critical")%list],
     Ret (Some {| returncode := 0; stdout := "" |})).
Proof.
  apply (notify_root_actions_first_session second_session_confirms
           "System Updater" "Update now?" confirm_action [] "critical");
    reflexivity.
Defined.

(** C8, as stated, fails: the first session's response names no action and
    the second session's would, yet [notify] returns the first response and
    never contacts the second session. *)
Lemma notify_root_returns_first_response :
  let args := notify_send_args "System Updater" "Update now?"
                [confirm_action] "critical" in
  let first := (notify_user_args alice "/run/user/1000" ++ args)%list in
  let second := (notify_user_args bob "/run/user/1001" ++ args)%list in
  outcome (notify second_session_confirms "System Updater" "Update now?"
             [confirm_action] "critical")
  = Ret (Some (subprocess_run second_session_confirms first))
  /\ str_in "universal-blue-update-confirm"
       (stdout (subprocess_run second_session_confirms first)) = false
  /\ str_in "universal-blue-update-confirm"
       (stdout (subprocess_run second_session_confirms second)) = true
  /\ ~ In (EvRun second)
         (trace (notify second_session_confirms "System Updater"
                   "Update now?" [confirm_action] "critical")).
Proof.
  cbv zeta. repeat split.
  cbn. intros [H | [H | [H | []]]]; discriminate H.
Qed.

(** ** Substrings *)

Lemma startswith_app needle rest : startswith needle (needle ++ rest) = true.
Proof.
  induction needle as [| a needle IH]; [reflexivity |].
  cbn. now rewrite Ascii.eqb_refl, IH.
Qed.

Lemma str_in_app_l needle rest : str_in needle (needle ++ rest) = true.
Proof.
  destruct needle; cbn.
  - now destruct rest.
  - now rewrite Ascii.eqb_refl, startswith_app.
Qed.

Lemma str_in_app_r needle pre hay :
  str_in needle hay = true -> str_in needle (pre ++ hay) = true.
Proof.
  intros H. induction pre as [| a pre IH]; [exact H |].
  cbn. rewrite IH. apply orb_true_r.
Qed.

Lemma str_in_refl needle : str_in needle needle = true.
Proof.
  assert (H : startswith needle needle = true).
  { induction needle as [| a needle IH]; [reflexivity |].
    cbn. now rewrite Ascii.eqb_refl, IH. }
  destruct needle; [reflexivity |]. cbn [str_in]. now rewrite H.
Qed.

Lemma str_in_concat sep reason reasons :
  In reason reasons -> str_in reason (String.concat sep reasons) = true.
Proof.
  induction reasons as [| r reasons IH]; [intros [] |].
  intros [-> | Hin].
  - destruct reasons; [apply str_in_refl | apply str_in_app_l].
  - destruct reasons as [| r' reasons]; [destruct Hin |].
    change (String.concat sep (r :: r' :: reasons))
      with (r ++ sep ++ String.concat sep (r' :: reasons)).
    apply str_in_app_r, str_in_app_r, IH, Hin.
Qed.

(** ** The gated abort *)

(** C6: in every run in which the inhibitor checks are made and fail, and
    no update is available or the invocation is check-only, the process makes
    no external call after the checks (no notification, no lock) and ends
    with the gating exception, whose message contains every failure
    reason. *)
Theorem gated_abort_without_escalation w args failures :
  wait args = false ->
  force args = false ->
  updatecheck args = false ->
  check_hardware_inhibitors w = (true, failures) ->
  system_update_check w = false \/ check args = true ->
  main w args
  = ([EvLoadConfig (config args); EvSystemUpdateCheck;
      EvCheckHardwareInhibitors],
     Raise (Exception (gating_message failures)))
  /\ count is_notify_send (trace (main w args)) = 0%nat
  /\ count is_acquire_attempt (trace (main w args)) = 0%nat
  /\ forall reason,
       In reason failures ->
       str_in reason (gating_message failures) = true.
Proof.
  intros Hwait Hforce Hupd Hchk Hcase.
  assert (E : main w args
              = ([EvLoadConfig (config args); EvSystemUpdateCheck;
                  EvCheckHardwareInhibitors],
                 Raise (Exception (gating_message failures)))).
  { unfold main, hardware_inhibitor_checks_failed.
    rewrite Hwait, Hforce, Hupd, Hchk. cbn [negb andb].
    destruct Hcase as [-> | ->]; [reflexivity |].
    now rewrite andb_false_r. }
  rewrite E. repeat split.
  intros reason Hin. unfold gating_message.
  apply str_in_app_r, str_in_app_r, str_in_app_r, str_in_concat, Hin.
Qed.

Lemma gated_abort_without_escalation_witness :
  main desktop_user check_args
  = ([EvLoadConfig None; EvSystemUpdateCheck; EvCheckHardwareInhibitors],
     Raise (Exception
       (gating_message ["battery low"; "metered network"])))
  /\ str_in "metered network"
       (gating_message ["battery low"; "metered network"]) = true.
Proof.
  destruct (gated_abort_without_escalation desktop_user check_args
              ["battery low"; "metered network"])
    as [H1 [_ [_ H2]]]; try reflexivity.
  - right. reflexivity.
  - split; [exact H1 |]. apply H2. cbn. right. left. reflexivity.
Defined.

(** ** Notifications disabled by configuration *)

Lemma notify_disabled w title body actions urgency :
  dbus_notify w = false ->
  notify w title body actions urgency = ([], Ret None).
Proof. intros H. unfold notify. now rewrite H. Qed.

(** Whatever the caller and the state of the lock, [run_updates] leaves
    through an exception or through [os._exit]. *)
Lemma run_updates_never_returns w (system system_update_available : bool) u :
  outcome (run_updates w system system_update_available) <> Ret u.
Proof.
  destruct (Z.eq_dec (getuid w) 0) as [Huid | Huid].
  - destruct (acquire_lock w "/run/ublue-update.lock") as [fd |] eqn:Hlock.
    + rewrite (run_updates_root w system system_update_available fd Huid Hlock).
      cbn [outcome snd].
      destruct (outcome_after_system w system system_update_available fd)
        as [-> | [[_ ->] | [e ->]]]; discriminate.
    + unfold run_updates, filelock_path. rewrite Huid. cbn [Z.eqb negb].
      step. rewrite Hlock. cbn. discriminate.
  - apply Z.eqb_neq in Huid. unfold run_updates, filelock_path.
    rewrite Huid. cbn [negb].
    destruct (environ_XDG_RUNTIME_DIR w) as [d |]; [| cbn; discriminate].
    destruct (isdir w d); cbn;
      match goal with |- context [acquire_lock w ?p] =>
        destruct (acquire_lock w p) end; cbn;
      destruct system; cbn; discriminate.
Qed.

(** ** The escalation *)

Lemma count_escalation_sent w :
  dbus_notify w = true ->
  (count is_escalation (trace (escalation w)) <= 1)%nat
  /\ (getuid w <> 0
      \/ (exists user rest d,
            get_active_sessions w = Some (user :: rest)
            /\ get_xdg_runtime_dir w (User user) = Some d) ->
      count is_escalation (trace (escalation w)) = 1%nat).
Proof.
  intros Hcfg. unfold escalation, notify. rewrite Hcfg. cbn [negb].
  destruct (getuid w =? 0) eqn:Huid.
  - unfold active_sessions_or_empty.
    destruct (get_active_sessions w) as [[| user rest] |].
    + cbn. split; [lia |]. intros [H | (u & r & d & [=] & _)].
      apply Z.eqb_eq in Huid. contradiction.
    + cbn [emit ret bind app notify_users].
      destruct (get_xdg_runtime_dir w (User user)) as [d |] eqn:Hdir.
      * split; [reflexivity |]. intros _. reflexivity.
      * cbn. split; [lia |]. intros [H | (u & r & d & [= <- _] & Hd)].
        -- apply Z.eqb_eq in Huid. contradiction.
        -- congruence.
    + cbn. split; [lia |]. intros [H | (u & r & d & [=] & _)].
      apply Z.eqb_eq in Huid. contradiction.
  - split; [reflexivity |]. intros _. reflexivity.
Qed.

Lemma count_escalation_lock w :
  count is_acquire_attempt (trace (escalation w)) = 0%nat.
Proof.
  eapply count_none; [| apply trace_notify].
  intros e He. apply (notify_event_not_lock _ e He).
Qed.

(** No notification of [run_updates] is the escalation. *)
Lemma count_escalation_run_updates w (system system_update_available : bool) :
  count is_escalation (trace (run_updates w system system_update_available))
  = 0%nat.
Proof.
  destruct (Z.eq_dec (getuid w) 0) as [Huid | Huid].
  - destruct (acquire_lock w "/run/ublue-update.lock") as [fd |] eqn:Hlock.
    + rewrite (run_updates_root w system system_update_available fd Huid Hlock).
      cbn [trace fst app]. counts.
      unfold is_escalation, progress.
      rewrite count_notify_on_command by reflexivity.
      rewrite count_sessions_on_command.
      rewrite count_after_system_on_command by reflexivity. reflexivity.
    + unfold run_updates, filelock_path. rewrite Huid. cbn [Z.eqb negb].
      step. rewrite Hlock. reflexivity.
  - apply Z.eqb_neq in Huid. unfold run_updates, filelock_path.
    rewrite Huid. cbn [negb].
    destruct (environ_XDG_RUNTIME_DIR w) as [d |]; [| reflexivity].
    destruct (isdir w d); cbn;
      match goal with |- context [acquire_lock w ?p] =>
        destruct (acquire_lock w p) end; cbn;
      destruct system; reflexivity.
Qed.

Lemma main_escalating w args failures :
  wait args = false ->
  force args = false ->
  updatecheck args = false ->
  check args = false ->
  check_hardware_inhibitors w = (true, failures) ->
  system_update_check w = true ->
  dbus_notify w = true ->
  main w args
  = (([EvLoadConfig (config args); EvSystemUpdateCheck;
       EvCheckHardwareInhibitors;
       EvLog INFO "Harware checks failed, but update is available"]
      ++ trace (escalation w)
      ++ (if confirmed w then trace (run_updates w (system args) true)
          else []))%list,
     if confirmed w then outcome (run_updates w (system args) true)
     else if garbled w then Raise UnicodeDecodeError
     else Raise (Exception (gating_message failures))).
Proof.
  intros Hwait Hforce Hupd Hcheck Hchk Havail Hcfg.
  rewrite (M_eta (main w args)).
  unfold main, hardware_inhibitor_checks_failed, ask_for_updates.
  rewrite Hwait, Hforce, Hupd, Hcheck, Hchk, Havail, Hcfg.
  cbn [negb andb]. fold (escalation w). unfold confirmed, garbled.
  step.
  destruct (outcome_notify w "System Updater"
              "Update available, but system checks failed. Update now?"
              [confirm_action] "critical") as [r Hr].
  fold (escalation w) in Hr. rewrite Hr. step.
  destruct r as [o |]; step; [| reflexivity].
  unfold decode. destruct (utf8_valid (stdout o)); step; [| reflexivity].
  cbn [andb negb].
  destruct (str_in "universal-blue-update-confirm" (stdout o)); step;
    [| reflexivity].
  destruct (outcome (run_updates w (system args) true)) as [u | e | c] eqn:Hru;
    step; try reflexivity.
  now apply run_updates_never_returns in Hru.
Qed.

(** C5 (as amended): in every run that is not check-only, in which the
    inhibitor checks are made and fail, an update is available and
    notifications are enabled, [notify] is called once with the critical,
    confirm-bearing request, before any attempt on the lock; it sends at most
    one such notification in the whole run, and exactly one when the caller
    is not root or is root with a first session whose runtime directory
    resolves. When the response decodes and names the confirm action the run
    continues with [run_updates system True], the very call a forced run
    with an available update ends in; when there is no response, or one
    that decodes and does not name the action, it ends with the gating
    exception; a response that is not well-formed UTF-8 ends it in
    [UnicodeDecodeError]. *)
Theorem escalation_then_forced_run w args failures :
  wait args = false ->
  force args = false ->
  updatecheck args = false ->
  check args = false ->
  check_hardware_inhibitors w = (true, failures) ->
  system_update_check w = true ->
  dbus_notify w = true ->
  let pre := [EvLoadConfig (config args); EvSystemUpdateCheck;
              EvCheckHardwareInhibitors;
              EvLog INFO "Harware checks failed, but update is available"] in
  let updates := run_updates w (system args) true in
  main w args
  = ((pre ++ trace (escalation w)
      ++ (if confirmed w then trace updates else []))%list,
     if confirmed w then outcome updates
     else if garbled w then Raise UnicodeDecodeError
     else Raise (Exception (gating_message failures)))
  /\ main w (forced args)
     = (([EvLoadConfig (config args); EvSystemUpdateCheck;
          EvLog INFO "System passed all update checks"]
         ++ trace updates)%list,
        outcome updates)
  /\ count is_acquire_attempt (pre ++ trace (escalation w)) = 0%nat
  /\ count is_escalation (trace (main w args))
     = count is_escalation (trace (escalation w))
  /\ (count is_escalation (trace (main w args)) <= 1)%nat
  /\ (getuid w <> 0
      \/ (exists user rest d,
            get_active_sessions w = Some (user :: rest)
            /\ get_xdg_runtime_dir w (User user) = Some d) ->
      count is_escalation (trace (main w args)) = 1%nat).
Proof.
  intros Hwait Hforce Hupd Hcheck Hchk Havail Hcfg pre updates.
  pose proof (main_escalating w args failures Hwait Hforce Hupd Hcheck Hchk
                Havail Hcfg) as Hmain.
  fold updates in Hmain. fold pre in Hmain.
  assert (Hcount : count is_escalation (trace (main w args))
                   = count is_escalation (trace (escalation w))).
  { rewrite Hmain. cbn [trace fst]. subst pre. counts. cbn [is_escalation
      on_command]. destruct (confirmed w).
    - subst updates. rewrite count_escalation_run_updates. lia.
    - cbn. lia. }
  destruct (count_escalation_sent w Hcfg) as [Hle Hone].
  split; [exact Hmain |].
  split.
  { rewrite (M_eta (main w (forced args))). unfold main, forced.
    cbn [force check updatecheck wait config system]. rewrite Hwait, Hupd, Havail.
    cbn [negb andb]. step. reflexivity. }
  split.
  { subst pre. counts. rewrite count_escalation_lock. reflexivity. }
  split; [exact Hcount |].
  split; [now rewrite Hcount |].
  intros H. rewrite Hcount. now apply Hone.
Qed.

Lemma escalation_then_forced_run_witness :
  main user_confirms plain_args
  = ([EvLoadConfig None; EvSystemUpdateCheck; EvCheckHardwareInhibitors;
      EvLog INFO "Harware checks failed, but update is available";
      EvRun (notify_send_args "System Updater"
               "Update available, but system checks failed. Update now?"
               [confirm_action] "critical");
      EvAcquireLock "/run/user/1000/ublue-update.lock" (Some 3);
      EvTransactionWait;
      EvReleaseLock 3],
     Exit 0)
  /\ count is_escalation (trace (main user_confirms plain_args)) = 1%nat.
Proof.
  destruct (escalation_then_forced_run user_confirms plain_args
              ["battery low"])
    as [H1 [_ [_ [_ [_ H2]]]]]; try reflexivity.
  split; [exact H1 |]. apply H2. left. cbn. lia.
Defined.

(** C5, as stated, fails: with failing inhibitors, an available update and
    notifications enabled, no escalation is sent in a check-only run, and
    none in a run of root while nobody is logged in. *)
Lemma escalation_not_always_sent :
  (check_hardware_inhibitors desktop_user
   = (true, ["battery low"; "metered network"])
   /\ system_update_check desktop_user = true
   /\ dbus_notify desktop_user = true
   /\ count is_escalation (trace (main desktop_user check_args)) = 0%nat)
  /\ (check_hardware_inhibitors root_nobody_logged_in
      = (true, ["battery low"])
      /\ system_update_check root_nobody_logged_in = true
      /\ dbus_notify root_nobody_logged_in = true
      /\ main root_nobody_logged_in plain_args
         = ([EvLoadConfig None; EvSystemUpdateCheck;
             EvCheckHardwareInhibitors;
             EvLog INFO "Harware checks failed, but update is available";
             EvGetActiveSessions],
            Raise (Exception (gating_message ["battery low"])))
      /\ count is_escalation (trace (main root_nobody_logged_in plain_args))
         = 0%nat).
Proof. repeat split. Qed.

(** ** A missing response while notifications are enabled *)

(** [ask_for_updates] reads a missing response as "no action selected". *)
Lemma ask_for_updates_absent_response w system :
  dbus_notify w = true ->
  outcome (escalation w) = Ret None ->
  ask_for_updates w system = (trace (escalation w), Ret tt).
Proof.
  intros Hcfg Hesc. rewrite (M_eta (ask_for_updates w system)).
  unfold ask_for_updates. rewrite Hcfg. cbn [negb].
  fold (escalation w). step. rewrite Hesc. step. reflexivity.
Qed.

(** C7 fails on the code at the reboot prompt: as root with notifications
    enabled and nobody logged in, [notify] returns no response; the
    escalation site of [ask_for_updates] takes that as "no action selected"
    and returns, while the reboot site of [run_updates] reads [out.stdout]
    and raises [AttributeError], with the lock still held. *)
Theorem reboot_prompt_absent_response_raises :
  outcome (escalation root_nobody_logged_in) = Ret None
  /\ ask_for_updates root_nobody_logged_in false
     = ([EvGetActiveSessions], Ret tt)
  /\ outcome (reboot_prompt root_nobody_logged_in) = Ret None
  /\ run_updates root_nobody_logged_in false true
     = ([EvAcquireLock "/run/ublue-update.lock" (Some 3);
         EvTransactionWait;
         EvGetActiveSessions;
         EvGetActiveSessions;
         EvRun topgrade_system_argv;
         EvLog DEBUG "";
         EvLog INFO "System update complete";
         EvPendingDeploymentCheck;
         EvGetActiveSessions],
        Raise AttributeError).
Proof. repeat split. Qed.

(** * Further properties of the orchestrator *)

(** ** The ways [run_updates] can go *)

Lemma run_updates_cases w (system system_update_available : bool) :
  run_updates w system system_update_available = ([], Raise TypeError)
  \/ (exists path,
        run_updates w system system_update_available
        = ([EvAcquireLock path None],
           Raise (Exception "updates are already running for this user")))
  \/ (exists path fd,
        getuid w <> 0
        /\ system = true
        /\ run_updates w system system_update_available
           = ([EvAcquireLock path (Some fd); EvTransactionWait],
              Raise (Exception
                "ublue-update needs to be run as root to perform system updates!")))
  \/ (exists path fd,
        getuid w <> 0
        /\ system = false
        /\ run_updates w system system_update_available
           = ([EvAcquireLock path (Some fd); EvTransactionWait;
               EvReleaseLock fd], Exit 0))
  \/ (exists fd,
        getuid w = 0
        /\ acquire_lock w "/run/ublue-update.lock" = Some fd).
Proof.
  destruct (Z.eq_dec (getuid w) 0) as [Huid | Huid].
  - destruct (acquire_lock w "/run/ublue-update.lock") as [fd |] eqn:Hlock.
    + do 4 right. now exists fd.
    + right. left. exists "/run/ublue-update.lock".
      unfold run_updates, filelock_path. rewrite Huid. cbn [Z.eqb negb].
      cbn. now rewrite Hlock.
  - pose proof Huid as Hneq. apply Z.eqb_neq in Huid.
    unfold run_updates, filelock_path. rewrite Huid. cbn [negb].
    destruct (environ_XDG_RUNTIME_DIR w) as [d |]; [| now left].
    right.
    destruct (isdir w d); cbn;
      match goal with |- context [acquire_lock w ?p] =>
        destruct (acquire_lock w p) as [fd |] eqn:Hlock end; cbn.
    + right. destruct system; cbn.
      * left. do 2 eexists. repeat split. exact Hneq.
      * right. left. do 2 eexists. repeat split. exact Hneq.
    + left. eexists. reflexivity.
    + right. destruct system; cbn.
      * left. do 2 eexists. repeat split. exact Hneq.
      * right. left. do 2 eexists. repeat split. exact Hneq.
    + left. eexists. reflexivity.
Qed.

Lemma filter_nil_of_count p t : count p t = 0%nat -> filter p t = [].
Proof. unfold count. now destruct (filter p t). Qed.

(** ** Order of the steps of [run_updates] *)

(** Only root runs subprocesses from [run_updates], and it does so only
    after taking the system lock and waiting for transactions: the trace
    either holds no subprocess at all, or starts with the successful
    acquisition of ["/run/ublue-update.lock"] and the transaction wait, with
    no further attempt on a lock afterwards. *)
Theorem lock_and_wait_come_first w (system system_update_available : bool) :
  count is_run (trace (run_updates w system system_update_available)) = 0%nat
  \/ exists fd rest,
       getuid w = 0
       /\ trace (run_updates w system system_update_available)
          = EvAcquireLock "/run/ublue-update.lock" (Some fd)
            :: EvTransactionWait :: rest
       /\ count is_acquire_attempt rest = 0%nat.
Proof.
  destruct (run_updates_cases w system system_update_available)
    as [E | [[path E] | [(path & fd & _ & _ & E) | [(path & fd & _ & _ & E)
       | (fd & Huid & Hlock)]]]];
    try (left; rewrite E; reflexivity).
  right. exists fd.
  rewrite (run_updates_root w system system_update_available fd Huid Hlock).
  cbn [trace fst app]. eexists. split; [exact Huid |].
  split; [reflexivity |].
  counts. unfold progress. rewrite count_notify_attempt.
  rewrite count_after_system_attempt.
  unfold active_sessions_or_empty.
  destruct (get_active_sessions w); reflexivity.
Qed.

(** With the system-only flag no per-user pass is ever started, whoever
    calls and whatever sessions are active. *)
Theorem system_only_skips_user_passes w (system_update_available : bool) :
  count is_user_pass (trace (run_updates w true system_update_available))
  = 0%nat.
Proof.
  destruct (run_updates_cases w true system_update_available)
    as [E | [[path E] | [(path & fd & _ & _ & E) | [(path & fd & _ & _ & E)
       | (fd & Huid & Hlock)]]]];
    try (rewrite E; reflexivity).
  rewrite (run_updates_root w true system_update_available fd Huid Hlock).
  cbn [trace fst app]. counts. unfold is_user_pass, progress.
  rewrite count_notify_on_command by reflexivity.
  rewrite count_sessions_on_command.
  rewrite count_after_system; try reflexivity.
  apply count_after_users_on_command; reflexivity.
Qed.

Lemma filter_skip (p : event -> bool) e t :
  p e = false -> filter p (e :: t) = filter p t.
Proof. intros H. cbn. now rewrite H. Qed.

Lemma filter_keep (p : event -> bool) e t :
  p e = true -> filter p (e :: t) = e :: filter p t.
Proof. intros H. cbn. now rewrite H. Qed.

Lemma filter_topgrade_update_users w users :
  passes_decode w users ->
  filter is_topgrade (trace (update_users w users))
  = map user_pass (reached w users).
Proof.
  unfold passes_decode.
  induction users as [| u users IH]; [reflexivity |].
  cbn [update_users reached]. step.
  destruct (get_xdg_runtime_dir w (User u)) as [d |]; [| reflexivity].
  intros H. inversion H as [| p l Hp Hl]; subst. cbn [fst snd] in Hp.
  step. unfold decode. rewrite Hp. step.
  cbn [map]. rewrite <- (IH Hl). reflexivity.
Qed.

(** In a root run that holds the lock, whose system-scope tool returns 0
    and in which the output of the system pass and of every per-user pass
    the loop reaches is well-formed UTF-8, the update-mechanics tool is
    invoked once for the system and then once for each session up to the
    first one whose runtime directory does not resolve, in the order the
    sessions were resolved, and never otherwise. *)
Theorem update_tool_order w (system system_update_available : bool) fd :
  getuid w = 0 ->
  acquire_lock w "/run/ublue-update.lock" = Some fd ->
  returncode (subprocess_run w topgrade_system_argv) = 0 ->
  utf8_valid (stdout (subprocess_run w topgrade_system_argv)) = true ->
  passes_decode w (if system then [] else resolved_sessions w) ->
  filter is_topgrade (trace (run_updates w system system_update_available))
  = EvRun topgrade_system_argv
    :: map user_pass
         (reached w (if system then [] else resolved_sessions w)).
Proof.
  intros Huid Hlock Hrc Hsys Husers.
  rewrite (run_updates_root w system system_update_available fd Huid Hlock).
  unfold after_system. rewrite Hrc, Hsys, (outcome_update_users w _ Husers).
  cbn [Z.eqb trace fst app].
  rewrite 2 filter_skip by reflexivity.
  rewrite !filter_app.
  rewrite (filter_nil_of_count is_topgrade (trace (progress w)))
    by (apply count_notify_on_command; reflexivity).
  rewrite (filter_nil_of_count is_topgrade (trace (active_sessions_or_empty w)))
    by apply count_sessions_on_command.
  cbn [app].
  rewrite filter_keep by reflexivity. rewrite filter_skip by reflexivity.
  f_equal. rewrite filter_app, (filter_topgrade_update_users w _ Husers).
  rewrite 2 filter_skip by reflexivity.
  rewrite (filter_nil_of_count is_topgrade
             (fst (after_users w system_update_available fd)))
    by (apply count_after_users_on_command; reflexivity).
  apply app_nil_r.
Qed.

Lemma update_tool_order_witness :
  filter is_topgrade (trace (run_updates root_reboots false true))
  = [EvRun topgrade_system_argv;
     EvRun (topgrade_user_argv alice "/run/user/1000");
     EvRun (topgrade_user_argv bob "/run/user/1001")].
Proof.
  apply (update_tool_order root_reboots false true 3);
    try reflexivity.
  repeat constructor.
Defined.

(** ** The reboot request *)

(** [run_updates] asks for a reboot only as root, after a successful system
    pass, when a deployment is pending, an update was available,
    notifications are enabled and the response to the reboot prompt names
    the reboot action; the request is then the last subprocess of the run,
    the lock is released after it and the process exits with status 0. *)
Theorem reboot_only_on_request w (system system_update_available : bool) :
  count is_reboot (trace (run_updates w system system_update_available))
  <> 0%nat ->
  getuid w = 0
  /\ returncode (subprocess_run w topgrade_system_argv) = 0
  /\ pending_deployment_check w = true
  /\ system_update_available = true
  /\ dbus_notify w = true
  /\ (exists out,
        outcome (reboot_prompt w) = Ret (Some out)
        /\ str_in "universal-blue-update-reboot" (stdout out) = true)
  /\ outcome (run_updates w system system_update_available) = Exit 0
  /\ exists pre fd,
       trace (run_updates w system system_update_available)
       = (pre ++ [EvRun ["systemctl"; "reboot"]; EvReleaseLock fd])%list.
Proof.
  destruct (run_updates_cases w system system_update_available)
    as [E | [[path E] | [(path & fd & _ & _ & E) | [(path & fd & _ & _ & E)
       | (fd & Huid & Hlock)]]]];
    try (rewrite E; intros H; now contradiction H).
  rewrite (run_updates_root w system system_update_available fd Huid Hlock).
  cbn [trace outcome fst snd app]. counts.
  unfold is_reboot at 1 2 3 4. unfold progress.
  rewrite count_notify_on_command by reflexivity.
  rewrite count_sessions_on_command.
  unfold after_system.
  destruct (utf8_valid (stdout (subprocess_run w topgrade_system_argv)));
    [| intros H; now contradiction H].
  destruct (returncode (subprocess_run w topgrade_system_argv) =? 0) eqn:Hrc;
    [| intros H; now contradiction H].
  apply Z.eqb_eq in Hrc.
  assert (Hu : count is_reboot
                 (trace (update_users w
                           (if system then [] else resolved_sessions w)))
               = 0%nat)
    by (apply count_update_users_on_command; reflexivity).
  destruct (outcome_update_users_cases w
              (if system then [] else resolved_sessions w)) as [-> | ->];
    cbn [fst snd]; counts; rewrite Hu;
    [| intros H; now contradiction H].
  unfold after_users.
  destruct (pending_deployment_check w) eqn:Hpend;
    [| intros H; now contradiction H].
  destruct system_update_available; [| intros H; now contradiction H].
  destruct (dbus_notify w) eqn:Hcfg; [| intros H; now contradiction H].
  cbn [andb].
  assert (Hr : count is_reboot (trace (reboot_prompt w)) = 0%nat)
    by (apply count_notify_on_command; reflexivity).
  destruct (outcome (reboot_prompt w)) as [[o |] | e | c] eqn:Hout;
    cbn [fst snd];
    try (rewrite Hr; intros H; now contradiction H).
  destruct (utf8_valid (stdout o)); cbn [fst snd];
    [| rewrite Hr; intros H; now contradiction H].
  destruct (str_in "universal-blue-update-reboot" (stdout o)) eqn:Hin;
    cbn [fst snd].
  - intros _. repeat split; eauto.
    exists ([EvAcquireLock "/run/ublue-update.lock" (Some fd);
             EvTransactionWait]
            ++ trace (notify w "System Updater"
                        "System passed checks, updating ..." [] "normal")
            ++ trace (active_sessions_or_empty w)
            ++ [EvRun topgrade_system_argv;
                EvLog DEBUG (stdout (subprocess_run w topgrade_system_argv))]
            ++ trace (update_users w
                        (if system then [] else resolved_sessions w))
            ++ [EvLog INFO "System update complete";
                EvPendingDeploymentCheck]
            ++ trace (reboot_prompt w))%list, fd.
    rewrite <- !app_assoc. reflexivity.
  - counts. rewrite Hr. intros H. now contradiction H.
Qed.

Lemma reboot_only_on_request_witness :
  outcome (run_updates root_reboots false true) = Exit 0
  /\ exists pre fd,
       trace (run_updates root_reboots false true)
       = (pre ++ [EvRun ["systemctl"; "reboot"]; EvReleaseLock fd])%list.
Proof.
  apply (reboot_only_on_request root_reboots false true).
  cbn. discriminate.
Defined.

(** ** Responses of [notify] *)

Lemma notify_users_response w title body actions urgency users out :
  outcome (notify_users w (notify_send_args title body actions urgency)
             actions users) = Ret (Some out) ->
  actions <> []
  /\ exists pre argv,
       trace (notify_users w (notify_send_args title body actions urgency)
                actions users) = (pre ++ [EvRun argv])%list
       /\ out = subprocess_run w argv
       /\ command argv = notify_send_args title body actions urgency.
Proof.
  induction users as [| user rest IH]; [discriminate |].
  cbn [notify_users]. step.
  destruct (get_xdg_runtime_dir w (User user)) as [d |]; [| discriminate].
  step. destruct actions as [| a actions].
  - intros H. destruct (IH H) as [Hne _]. now contradiction Hne.
  - step. intros [= <-]. split; [discriminate |].
    exists [EvGetXdgRuntimeDir (User user)]. eexists.
    split; [reflexivity |]. split; [reflexivity |].
    apply command_notify_user.
Qed.

(** Whenever [notify] returns a response, it is the response of the last
    notification it sent, and that notification carried the requested
    arguments; root gets a response only for a request with actions. *)
Theorem notify_response_provenance w title body actions urgency out :
  outcome (notify w title body actions urgency) = Ret (Some out) ->
  (getuid w <> 0 \/ actions <> [])
  /\ exists pre argv,
       trace (notify w title body actions urgency) = (pre ++ [EvRun argv])%list
       /\ out = subprocess_run w argv
       /\ command argv = notify_send_args title body actions urgency.
Proof.
  unfold notify. destruct (dbus_notify w); cbn [negb]; [| discriminate].
  destruct (getuid w =? 0) eqn:Huid.
  - step. rewrite outcome_active_sessions_eq. intros H.
    destruct (notify_users_response w title body actions urgency
                (resolved_sessions w) out H)
      as (Hne & pre & argv & Ht & Ho & Hc).
    split; [now right |].
    exists (trace (active_sessions_or_empty w) ++ pre)%list, argv.
    rewrite Ht, app_assoc. now repeat split.
  - step. intros [= <-]. apply Z.eqb_neq in Huid. split; [now left |].
    exists [], (notify_send_args title body actions urgency).
    now repeat split.
Qed.

Lemma notify_response_provenance_witness :
  exists pre argv,
    trace (escalation second_session_confirms) = (pre ++ [EvRun argv])%list
    /\ {| returncode := 0; stdout := "" |}
       = subprocess_run second_session_confirms argv
    /\ command argv
       = notify_send_args "System Updater"
           "Update available, but system checks failed. Update now?"
           [confirm_action] "critical".
Proof.
  apply (notify_response_provenance second_session_confirms
           "System Updater"
           "Update available, but system checks failed. Update now?"
           [confirm_action] "critical" {| returncode := 0; stdout := "" |}).
  reflexivity.
Defined.

Lemma notify_users_broadcast w args users :
  outcome (notify_users w args [] users) = Ret None
  /\ filter is_run (trace (notify_users w args [] users))
     = map (fun p => EvRun (notify_user_args (fst p) (snd p) ++ args)%list)
           (reached w users).
Proof.
  induction users as [| user rest [IHo IHt]]; [split; reflexivity |].
  cbn [notify_users reached]. step.
  destruct (get_xdg_runtime_dir w (User user)) as [d |];
    [| split; reflexivity].
  step. split; [exact IHo |].
  rewrite filter_skip by reflexivity. rewrite filter_keep by reflexivity.
  cbn [map fst snd]. now rewrite IHt.
Qed.

(** A notification without actions sent by root goes, in resolution order,
    to every session that comes before the first one whose runtime directory
    does not resolve, and no response is returned. *)
Theorem notify_without_actions_root w title body urgency :
  dbus_notify w = true ->
  getuid w = 0 ->
  outcome (notify w title body [] urgency) = Ret None
  /\ filter is_run (trace (notify w title body [] urgency))
     = map (fun p =>
              EvRun (notify_user_args (fst p) (snd p)
                     ++ notify_send_args title body [] urgency)%list)
           (reached w (resolved_sessions w)).
Proof.
  intros Hcfg Huid. unfold notify. rewrite Hcfg, Huid. cbn [negb Z.eqb].
  step. rewrite outcome_active_sessions_eq.
  destruct (notify_users_broadcast w (notify_send_args title body [] urgency)
              (resolved_sessions w)) as [Ho Ht].
  split; [exact Ho |].
  rewrite filter_app, Ht.
  unfold active_sessions_or_empty.
  destruct (get_active_sessions w); reflexivity.
Qed.

Lemma notify_without_actions_root_witness :
  outcome (progress root_reboots) = Ret None
  /\ filter is_run (trace (progress root_reboots))
     = [EvRun (notify_user_args alice "/run/user/1000"
               ++ notify_send_args "System Updater"
                    "System passed checks, updating ..." [] "normal")%list;
        EvRun (notify_user_args bob "/run/user/1001"
               ++ notify_send_args "System Updater"
                    "System passed checks, updating ..." [] "normal")%list].
Proof.
  apply (notify_without_actions_root root_reboots "System Updater"
           "System passed checks, updating ..." "normal"); reflexivity.
Defined.

(** ** The reboot prompt without a reachable session *)

Lemma notify_users_unreached w args actions users :
  reached w users = [] ->
  outcome (notify_users w args actions users) = Ret None.
Proof.
  destruct users as [| user rest]; [reflexivity |].
  cbn [reached notify_users]. step.
  destruct (get_xdg_runtime_dir w (User user)); [discriminate | reflexivity].
Qed.

(** When root has no reachable session (nobody logged in, or the first
    session's runtime directory does not resolve) while a deployment is
    pending, an update was available and notifications are enabled, the
    reboot prompt returns no response and [run_updates] ends in an
    [AttributeError] after a system pass that returned 0 with well-formed
    output, with the lock taken and not released. *)
Theorem missing_reboot_response_raises w (system : bool) fd :
  getuid w = 0 ->
  acquire_lock w "/run/ublue-update.lock" = Some fd ->
  returncode (subprocess_run w topgrade_system_argv) = 0 ->
  utf8_valid (stdout (subprocess_run w topgrade_system_argv)) = true ->
  pending_deployment_check w = true ->
  dbus_notify w = true ->
  reached w (resolved_sessions w) = [] ->
  outcome (run_updates w system true) = Raise AttributeError
  /\ count is_acquired (trace (run_updates w system true)) = 1%nat
  /\ count is_release (trace (run_updates w system true)) = 0%nat.
Proof.
  intros Huid Hlock Hrc Hsys Hpend Hcfg Hnone.
  assert (Hprompt : outcome (reboot_prompt w) = Ret None).
  { unfold reboot_prompt, notify. rewrite Hcfg, Huid. cbn [negb Z.eqb].
    step. rewrite outcome_active_sessions_eq.
    now apply notify_users_unreached. }
  assert (Hdec : passes_decode w (if system then [] else resolved_sessions w)).
  { unfold passes_decode. destruct system; [constructor |].
    rewrite Hnone. constructor. }
  rewrite (run_updates_root w system true fd Huid Hlock).
  unfold after_system.
  rewrite Hrc, Hsys, (outcome_update_users w _ Hdec).
  cbn [Z.eqb trace outcome fst snd app].
  unfold after_users. rewrite Hpend, Hcfg, Hprompt. cbn [andb fst snd].
  split; [reflexivity |]. counts. unfold progress.
  destruct (count_notify_lock w "System Updater"
              "System passed checks, updating ..." [] "normal") as [-> ->].
  destruct (count_sessions_lock w) as [-> ->].
  destruct (count_update_users_lock w
              (if system then [] else resolved_sessions w)) as [-> ->].
  destruct (count_notify_lock w "System Updater"
    "System update complete, pending changes will take effect after reboot. Reboot now?"
    [reboot_action] "normal") as [Ha Hr].
  fold (reboot_prompt w) in Ha, Hr. rewrite Ha, Hr. split; reflexivity.
Qed.

Lemma missing_reboot_response_raises_witness :
  outcome (run_updates root_nobody_logged_in false true)
  = Raise AttributeError
  /\ count is_acquired (trace (run_updates root_nobody_logged_in false true))
     = 1%nat
  /\ count is_release (trace (run_updates root_nobody_logged_in false true))
     = 0%nat.
Proof.
  apply (missing_reboot_response_raises root_nobody_logged_in false 3);
    reflexivity.
Defined.

(** ** Ways out of [run_updates] *)

(** [run_updates] never returns to its caller: it ends the process with
    status 0, ends it with the non-zero status of the system-scope tool, or
    raises. *)
Lemma run_updates_ends_the_process w (system system_update_available : bool) :
  outcome (run_updates w system system_update_available) = Exit 0
  \/ (getuid w = 0
      /\ returncode (subprocess_run w topgrade_system_argv) <> 0
      /\ outcome (run_updates w system system_update_available)
         = Exit (returncode (subprocess_run w topgrade_system_argv)))
  \/ exists e,
       outcome (run_updates w system system_update_available) = Raise e.
Proof.
  destruct (run_updates_cases w system system_update_available)
    as [E | [[path E] | [(path & fd & _ & _ & E) | [(path & fd & _ & _ & E)
       | (fd & Huid & Hlock)]]]];
    try (rewrite E; cbn; eauto; fail).
  rewrite (run_updates_root w system system_update_available fd Huid Hlock).
  cbn [outcome snd].
  destruct (outcome_after_system w system system_update_available fd)
    as [H | [[Hrc H] | [e H]]]; rewrite H.
  - now left.
  - right. left. now repeat split.
  - right. right. eauto.
Qed.

Lemma normal_exit_releases_once_witness :
  count is_acquired (trace (run_updates root_reboots false true)) = 1%nat
  /\ count is_release (trace (run_updates root_reboots false true)) = 1%nat.
Proof.
  apply (normal_exit_releases_once root_reboots false true). reflexivity.
Defined.

(** ** The shape of a whole invocation *)

Lemma gate_event_of_notify e :
  notify_event
    (notify_send_args "System Updater"
       "Update available, but system checks failed. Update now?"
       [confirm_action] "critical") e ->
  gate_event e.
Proof. destruct e as [| | | | | | | | | | [] |]; cbn; auto. Qed.

Lemma gate_events_escalation w : Forall gate_event (trace (escalation w)).
Proof.
  eapply Forall_impl; [| apply trace_notify]. apply gate_event_of_notify.
Qed.

Lemma main_shape w args :
  exists pre,
    Forall gate_event pre
    /\ ((trace (main w args) = pre
         /\ (outcome (main w args) = Exit 0
             \/ exists e, outcome (main w args) = Raise e)
         /\ ~ gate_open w args)
        \/ exists x,
             trace (main w args)
             = (pre ++ trace (run_updates w (system args) x))%list
             /\ outcome (main w args)
                = outcome (run_updates w (system args) x)
             /\ gate_open w args).
Proof.
  destruct (wait args) eqn:Hwait.
  { exists [EvLoadConfig (config args); EvTransactionWait].
    split; [repeat constructor |]. left.
    unfold main. rewrite Hwait. split; [reflexivity |].
    split; [now left |]. intros (H & _). congruence. }
  destruct (updatecheck args) eqn:Hupd.
  { exists [EvLoadConfig (config args); EvSystemUpdateCheck].
    split; [repeat constructor |]. left.
    unfold main. rewrite Hwait, Hupd, andb_false_r.
    split; [| split].
    - now destruct (system_update_check w).
    - destruct (system_update_check w); cbn; eauto.
    - intros (_ & H & _). congruence. }
  destruct (force args) eqn:Hforce.
  { exists [EvLoadConfig (config args); EvSystemUpdateCheck;
            EvLog INFO "System passed all update checks"].
    split; [repeat constructor |]. right. exists (system_update_check w).
    unfold main. rewrite Hwait, Hupd, Hforce. cbn [negb andb].
    split; [| split]; [step; reflexivity | step; reflexivity |].
    unfold gate_open. auto. }
  destruct (check_hardware_inhibitors w) as [[|] failures] eqn:Hchk.
  - destruct (system_update_check w && negb (check args)
              && dbus_notify w) eqn:Hesc.
    + apply andb_prop in Hesc. destruct Hesc as [Hesc Hcfg].
      apply andb_prop in Hesc. destruct Hesc as [Havail Hcheck].
      apply negb_true_iff in Hcheck.
      pose proof (main_escalating w args failures Hwait Hforce Hupd Hcheck
                    Hchk Havail Hcfg) as Hmain.
      exists ([EvLoadConfig (config args); EvSystemUpdateCheck;
               EvCheckHardwareInhibitors;
               EvLog INFO "Harware checks failed, but update is available"]
              ++ trace (escalation w))%list.
      split.
      { apply Forall_app. split; [repeat constructor |].
        apply gate_events_escalation. }
      rewrite Hmain. cbn [trace outcome fst snd].
      destruct (confirmed w) eqn:Hconf.
      * right. exists true. rewrite <- app_assoc.
        split; [reflexivity |]. split; [reflexivity |].
        unfold gate_open. do 2 (split; [assumption |]). right. right.
        now repeat split.
      * left. rewrite app_nil_r. split; [reflexivity |].
        split; [destruct (garbled w); eauto |].
        unfold gate_open. rewrite Hchk, Hforce, Hconf. cbn [fst].
        intros (_ & _ & [H | [[_ H] | (_ & _ & _ & H)]]); discriminate H.
    + exists ([EvLoadConfig (config args); EvSystemUpdateCheck;
               EvCheckHardwareInhibitors]
              ++ if system_update_check w && negb (check args)
                 then [EvLog INFO
                         "Harware checks failed, but update is available"]
                 else [])%list.
      split.
      { destruct (system_update_check w && negb (check args));
          repeat constructor. }
      left. unfold main, hardware_inhibitor_checks_failed, ask_for_updates.
      rewrite Hwait, Hupd, Hforce, Hchk. cbn [negb andb].
      split; [| split].
      * destruct (system_update_check w && negb (check args)) eqn:Hask;
          [| reflexivity].
        cbn [andb] in Hesc. now rewrite Hesc.
      * destruct (system_update_check w && negb (check args)) eqn:Hask;
          [| cbn; eauto].
        cbn [andb] in Hesc. rewrite Hesc. cbn. eauto.
      * unfold gate_open. rewrite Hchk, Hforce. cbn [fst].
        intros (_ & _ & [H | [[_ H] | (Hc & Ha & Hd & _)]]);
          try discriminate H.
        rewrite Hc, Ha, Hd in Hesc. discriminate Hesc.
  - destruct (check args) eqn:Hcheck.
    + exists [EvLoadConfig (config args); EvSystemUpdateCheck;
              EvCheckHardwareInhibitors].
      split; [repeat constructor |]. left.
      unfold main. rewrite Hwait, Hupd, Hforce, Hchk, Hcheck.
      split; [reflexivity |]. split; [cbn; eauto |].
      unfold gate_open. rewrite Hforce, Hcheck.
      intros (_ & _ & [H | [[H _] | (H & _)]]); discriminate H.
    + exists [EvLoadConfig (config args); EvSystemUpdateCheck;
              EvCheckHardwareInhibitors;
              EvLog INFO "System passed all update checks"].
      split; [repeat constructor |]. right. exists (system_update_check w).
      unfold main. rewrite Hwait, Hupd, Hforce, Hchk, Hcheck.
      cbn [negb andb]. split; [| split]; [step; reflexivity .. |].
      unfold gate_open. rewrite Hchk. do 2 (split; [assumption |]).
      right. left. now split.
Qed.

Lemma gate_event_quiet e :
  gate_event e ->
  is_acquire_attempt e = false /\ is_acquired e = false
  /\ is_release e = false /\ is_topgrade e = false.
Proof.
  destruct e as [| | | | | | | | | argv | [] |]; cbn; try tauto.
  intros ->. now repeat split.
Qed.

Lemma count_gate_events pre :
  Forall gate_event pre ->
  count is_acquire_attempt pre = 0%nat /\ count is_acquired pre = 0%nat
  /\ count is_release pre = 0%nat /\ count is_topgrade pre = 0%nat.
Proof.
  intros H. repeat split; (eapply count_none; [| exact H]);
    intros e He; apply (gate_event_quiet e He).
Qed.

Lemma run_updates_lock_counts w (system system_update_available : bool) :
  (count is_acquire_attempt
     (trace (run_updates w system system_update_available)) <= 1)%nat
  /\ (count is_release (trace (run_updates w system system_update_available))
      <= count is_acquired
           (trace (run_updates w system system_update_available)))%nat
  /\ (count is_topgrade (trace (run_updates w system system_update_available))
      <> 0%nat ->
      getuid w = 0
      /\ count is_acquired
           (trace (run_updates w system system_update_available)) = 1%nat).
Proof.
  destruct (run_updates_cases w system system_update_available)
    as [E | [[path E] | [(path & fd & _ & _ & E) | [(path & fd & _ & _ & E)
       | (fd & Huid & Hlock)]]]];
    try (rewrite E; cbn; repeat split; try lia; intros H; now contradiction H).
  rewrite (run_updates_root w system system_update_available fd Huid Hlock).
  cbn [trace fst app]. counts. unfold progress.
  rewrite count_notify_attempt.
  destruct (count_notify_lock w "System Updater"
              "System passed checks, updating ..." [] "normal") as [-> ->].
  destruct (count_sessions_lock w) as [-> ->].
  assert (Hs : count is_acquire_attempt (trace (active_sessions_or_empty w))
               = 0%nat).
  { unfold active_sessions_or_empty.
    destruct (get_active_sessions w); reflexivity. }
  rewrite Hs, count_after_system_attempt.
  destruct (count_after_system_lock w system system_update_available fd)
    as (-> & Hle & _).
  cbn. repeat split; lia.
Qed.

(** ** Invariants of a whole invocation *)

(** Lock discipline of an invocation: the lock is attempted at most once,
    it is never released more often than it was acquired, and it is attempted
    only when the gate is open (not wait-only or update-check-only, and
    forced, or passing inhibitors without [--check], or a confirmed
    escalation). *)
Theorem main_lock_discipline w args :
  (count is_acquire_attempt (trace (main w args)) <= 1)%nat
  /\ (count is_release (trace (main w args))
      <= count is_acquired (trace (main w args)))%nat
  /\ (count is_acquire_attempt (trace (main w args)) <> 0%nat ->
      gate_open w args).
Proof.
  destruct (main_shape w args)
    as (pre & Hpre & [(Ht & _ & _) | (x & Ht & _ & Hgate)]);
    destruct (count_gate_events pre Hpre) as (Ha & Hq & Hr & _);
    rewrite Ht.
  - rewrite Ha, Hq, Hr. split; [lia |]. split; [lia |].
    intros H. now contradiction H.
  - counts. rewrite Ha, Hq, Hr.
    destruct (run_updates_lock_counts w (system args) x) as (H1 & H2 & _).
    split; [cbn; lia |]. split; [cbn; lia |]. intros _. exact Hgate.
Qed.

Lemma main_lock_discipline_witness : gate_open user_confirms plain_args.
Proof.
  apply (main_lock_discipline user_confirms plain_args).
  cbn. discriminate.
Defined.

(** The update-mechanics tool runs only for root, only with the lock
    acquired, and only when the gate is open: failing inhibitors block it
    unless the run is forced or the escalation was confirmed. *)
Theorem updates_only_through_the_gate w args :
  count is_topgrade (trace (main w args)) <> 0%nat ->
  getuid w = 0
  /\ gate_open w args
  /\ count is_acquired (trace (main w args)) = 1%nat.
Proof.
  destruct (main_shape w args)
    as (pre & Hpre & [(Ht & _ & _) | (x & Ht & _ & Hgate)]);
    destruct (count_gate_events pre Hpre) as (_ & Hq & _ & Hg);
    rewrite Ht.
  - rewrite Hg. intros H. now contradiction H.
  - counts. rewrite Hg, Hq. cbn [Nat.add]. intros H.
    destruct (run_updates_lock_counts w (system args) x) as (_ & _ & H3).
    destruct (H3 H) as [Huid Hacq].
    split; [exact Huid |]. split; [exact Hgate |]. cbn. exact Hacq.
Qed.

Lemma updates_only_through_the_gate_witness :
  getuid root_reboots = 0
  /\ gate_open root_reboots plain_args
  /\ count is_acquired (trace (main root_reboots plain_args)) = 1%nat.
Proof.
  apply (updates_only_through_the_gate root_reboots plain_args).
  cbn. discriminate.
Defined.

(** Every invocation ends the process or raises: [main] never returns, and
    an exit status is 0 or, for root, the non-zero status of the
    system-scope update tool. *)
Theorem main_exit_status w args :
  outcome (main w args) = Exit 0
  \/ (getuid w = 0
      /\ returncode (subprocess_run w topgrade_system_argv) <> 0
      /\ outcome (main w args)
         = Exit (returncode (subprocess_run w topgrade_system_argv)))
  \/ exists e, outcome (main w args) = Raise e.
Proof.
  destruct (main_shape w args)
    as (pre & _ & [(_ & [Ho | [e Ho]] & _) | (x & _ & Ho & _)]);
    rewrite Ho.
  - now left.
  - right. right. eauto.
  - apply run_updates_ends_the_process.
Qed.

(** The human is interrupted by the escalation only when it is needed: an
    escalation notification is sent only in an invocation that is neither
    wait-only, forced, update-check-only nor check-only, whose inhibitor
    checks failed, with an update available and notifications enabled. *)
Theorem escalation_only_when_needed w args :
  count is_escalation (trace (main w args)) <> 0%nat ->
  wait args = false
  /\ force args = false
  /\ updatecheck args = false
  /\ check args = false
  /\ fst (check_hardware_inhibitors w) = true
  /\ system_update_check w = true
  /\ dbus_notify w = true.
Proof.
  intros H.
  destruct (wait args) eqn:Hwait.
  { exfalso. apply H. unfold main. now rewrite Hwait. }
  destruct (updatecheck args) eqn:Hupd.
  { exfalso. apply H. unfold main. rewrite Hwait, Hupd, andb_false_r.
    now destruct (system_update_check w). }
  destruct (force args) eqn:Hforce.
  { exfalso. apply H. unfold main. rewrite Hwait, Hupd, Hforce.
    cbn [negb andb]. step. counts.
    now rewrite count_escalation_run_updates. }
  destruct (check_hardware_inhibitors w) as [[|] failures] eqn:Hchk.
  - destruct (check args) eqn:Hcheck.
    { exfalso. apply H. unfold main, hardware_inhibitor_checks_failed.
      rewrite Hwait, Hupd, Hforce, Hchk, Hcheck. cbn [negb andb].
      now rewrite andb_false_r. }
    destruct (system_update_check w) eqn:Havail.
    2:{ exfalso. apply H. unfold main, hardware_inhibitor_checks_failed.
        now rewrite Hwait, Hupd, Hforce, Hchk, Hcheck, Havail. }
    destruct (dbus_notify w) eqn:Hcfg.
    2:{ exfalso. apply H.
        unfold main, hardware_inhibitor_checks_failed, ask_for_updates.
        now rewrite Hwait, Hupd, Hforce, Hchk, Hcheck, Havail, Hcfg. }
    now repeat split.
  - exfalso. apply H. unfold main. rewrite Hwait, Hupd, Hforce, Hchk.
    cbn [negb andb]. destruct (check args); [reflexivity |].
    step. counts. now rewrite count_escalation_run_updates.
Qed.

Lemma escalation_only_when_needed_witness :
  wait plain_args = false
  /\ force plain_args = false
  /\ updatecheck plain_args = false
  /\ check plain_args = false
  /\ fst (check_hardware_inhibitors user_confirms) = true
  /\ system_update_check user_confirms = true
  /\ dbus_notify user_confirms = true.
Proof.
  apply (escalation_only_when_needed user_confirms plain_args).
  cbn. discriminate.
Defined.

(** ** A non-root caller with the system-only flag *)


